(** * The health-check service: [src/main.py] and [src/routes/health.py]

    The repository is a FastAPI application with one route, [GET /health],
    behind Starlette's [CORSMiddleware].  The two source files only
    {e configure} the framework, so the development has two layers:

    - the framework semantics the configuration is interpreted by
      (modules [Text], [Headers], [Http], [Url], [Coro], [CORS] and the
      routing part of section [Application]), written after the
      Starlette/FastAPI functions named in each comment;
    - the repository's own code: [health_check], [router], [cors] and [app].

    The repository pins no release of the framework.  Where releases of
    [CORSMiddleware] differ, the difference is a field of [CORS.Release]
    and every theorem holds for all releases; [CORS.release_0_46] is the
    release the comments quote.  What a process fixes at start-up (the
    iteration order of a set of methods) and what FastAPI's documentation
    endpoints answer are variables of section [Application].

    Conventions.  A Python [str] holding header or path text is a [string]
    with one character per code point, code points below 256; [bytes] are
    a [string] with one character per byte; a [Dict[str, str]] is a
    [gmap string string]; Python [int]s are [Z].  Requests are HTTP requests
    served at the root (ASGI [root_path] empty).  Starting the process and
    binding the address is the work of the ASGI server that imports [app];
    it is in neither file and is not modelled. *)

From Stdlib Require Import String Ascii List ZArith Lia Bool.
From stdpp Require Import base strings gmap pretty.
Import ListNotations.

Local Open Scope string_scope.
Local Open Scope list_scope.
Local Open Scope Z_scope.

(** ** Text helpers (Python [str] methods used by the framework) *)
Module Text.

(** [str.lower] on latin-1 text: [A-Z] and the accented capitals
    U+00C0..U+00DE (U+00D7, the multiplication sign, excepted). *)
Definition lower_char (c : ascii) : ascii :=
  let n := nat_of_ascii c in
  if ((65 <=? n)%nat && (n <=? 90)%nat)
     || ((192 <=? n)%nat && (n <=? 222)%nat && negb (n =? 215)%nat)
  then ascii_of_nat (n + 32) else c.

Fixpoint lower (s : string) : string :=
  match s with
  | EmptyString => EmptyString
  | String c s' => String (lower_char c) (lower s')
  end.

(** [str.isspace] restricted to code points below 256. *)
Definition is_space (c : ascii) : bool :=
  let n := nat_of_ascii c in
  ((9 <=? n)%nat && (n <=? 13)%nat) || ((28 <=? n)%nat && (n <=? 32)%nat)
  || (n =? 133)%nat || (n =? 160)%nat.

Fixpoint lstrip (s : string) : string :=
  match s with
  | EmptyString => EmptyString
  | String c s' => if is_space c then lstrip s' else s
  end.

(** [s.rstrip()] when [p] is [is_space], [s.rstrip("/")] when [p]
    recognises the slash. *)
Fixpoint rstrip_by (p : ascii -> bool) (s : string) : string :=
  match s with
  | EmptyString => EmptyString
  | String c s' =>
      match rstrip_by p s' with
      | EmptyString => if p c then EmptyString else String c EmptyString
      | t => String c t
      end
  end.

Definition strip (s : string) : string := rstrip_by is_space (lstrip s).

Definition is_slash (c : ascii) : bool := Ascii.eqb c "/"%char.

Definition rstrip_slash (s : string) : string := rstrip_by is_slash s.

Fixpoint endswith_slash (s : string) : bool :=
  match s with
  | EmptyString => false
  | String c EmptyString => is_slash c
  | String _ s' => endswith_slash s'
  end.

(** [s.split(",")]: always at least one piece. *)
Fixpoint split_comma_aux (cur : string) (s : string) : list string :=
  match s with
  | EmptyString => [cur]
  | String c s' =>
      if Ascii.eqb c ","%char then cur :: split_comma_aux EmptyString s'
      else split_comma_aux (cur +:+ String c EmptyString) s'
  end.

Definition split_comma (s : string) : list string :=
  split_comma_aux EmptyString s.

(** [x in xs] for a sequence of strings. *)
Definition mem (x : string) (xs : list string) : bool :=
  existsb (String.eqb x) xs.

(** [sorted(set(xs))]: ascending by code point, duplicates merged. *)
Fixpoint insert_sorted (x : string) (xs : list string) : list string :=
  match xs with
  | [] => [x]
  | y :: ys =>
      match String.compare x y with
      | Lt => x :: y :: ys
      | Eq => y :: ys
      | Gt => y :: insert_sorted x ys
      end
  end.

Definition sorted_set (xs : list string) : list string :=
  fold_right insert_sorted [] xs.

(** The line feed, which Python's [$] tolerates at the end of a match. *)
Definition LF : string := String "010"%char EmptyString.

End Text.

(** ** Header lists

    [starlette.datastructures.Headers] and [MutableHeaders] over the raw
    ASGI list of (name, value) pairs, names in lower case. *)
Module Headers.

Definition t : Type := list (string * string).

(** [Headers.get(key)] / [Headers.__getitem__]: the first pair whose
    name is [key.lower()]. *)
Fixpoint get_raw (k : string) (hs : t) : option string :=
  match hs with
  | [] => None
  | (k', v) :: rest => if String.eqb k' k then Some v else get_raw k rest
  end.

Definition get (key : string) (hs : t) : option string :=
  get_raw (Text.lower key) hs.

(** [key in headers]. *)
Definition contains (key : string) (hs : t) : bool :=
  match get key hs with Some _ => true | None => false end.

Definition remove_raw (k : string) (hs : t) : t :=
  List.filter (fun h => negb (String.eqb (fst h) k)) hs.

(** [MutableHeaders.__setitem__]: the first pair of that name is
    replaced and later ones are deleted; a new name is appended. *)
Fixpoint set_raw (k v : string) (hs : t) : t :=
  match hs with
  | [] => [(k, v)]
  | (k', v') :: rest =>
      if String.eqb k' k then (k, v) :: remove_raw k rest
      else (k', v') :: set_raw k v rest
  end.

Definition setitem (key value : string) (hs : t) : t :=
  set_raw (Text.lower key) value hs.

(** [MutableHeaders.update(other)]: [setitem] for each item, in order. *)
Definition update (other : list (string * string)) (hs : t) : t :=
  fold_left (fun acc kv => setitem (fst kv) (snd kv) acc) other hs.

(** [MutableHeaders.add_vary_header(vary)]. *)
Definition add_vary_header (vary : string) (hs : t) : t :=
  match get "vary" hs with
  | Some existing => setitem "vary" (existing +:+ ", " +:+ vary) hs
  | None => setitem "vary" vary hs
  end.

End Headers.

(** A Python [dict] with [str] keys, in insertion order:
    [d[k] = v] keeps the position of an existing key. *)
Fixpoint dict_set (k v : string) (d : list (string * string))
  : list (string * string) :=
  match d with
  | [] => [(k, v)]
  | (k', v') :: rest =>
      if String.eqb k' k then (k, v) :: rest else (k', v') :: dict_set k v rest
  end.

(** ** HTTP messages *)
Module Http.

(** The ASGI scope of an HTTP request, as far as the application reads
    it, and the request body.  [query_string] is [bytes]; [server] is the
    listening (host, port), with no port for a Unix socket. *)
Record Request : Type := mkRequest {
  method : string;
  path : string;
  query_string : string;
  headers : Headers.t;
  body : string;
  scheme : string;
  server : option (string * option Z)
}.

(** What a response class renders: [JSONResponse] renders a dict,
    the other classes carry their bytes (empty for [b""]). *)
Inductive Body : Type :=
| JSON (content : gmap string string)
| Bytes (content : string).

(** A response as sent.  [raw_headers] keeps every header but
    [content-length], which depends on the byte rendering only. *)
Record Response : Type := mkResponse {
  status_code : Z;
  raw_headers : Headers.t;
  resp_body : Body
}.

(** [Response.init_headers]: the given headers with lower-cased names,
    then [content-type] unless it is among them. *)
Definition init_headers (hs : list (string * string))
    (content_type : option string) : Headers.t :=
  let raw := map (fun kv => (Text.lower (fst kv), snd kv)) hs in
  match content_type with
  | Some ct =>
      if Text.mem "content-type" (map fst raw) then raw
      else raw ++ [("content-type", ct)]
  | None => raw
  end.

(** [JSONResponse(content, status_code, headers)],
    [media_type = "application/json"]. *)
Definition JSONResponse (content : gmap string string) (status : Z)
    (hs : list (string * string)) : Response :=
  mkResponse status (init_headers hs (Some "application/json")) (JSON content).

(** [PlainTextResponse(content, status_code, headers)]: [media_type] is
    ["text/plain"], to which [init_headers] adds the charset. *)
Definition PlainTextResponse (content : string) (status : Z)
    (hs : list (string * string)) : Response :=
  mkResponse status (init_headers hs (Some "text/plain; charset=utf-8"))
             (Bytes content).

(** [Response(status_code=..., headers=...)]: no content, no media type. *)
Definition EmptyResponse (status : Z) (hs : list (string * string)) : Response :=
  mkResponse status (init_headers hs None) (Bytes "").

(** [RedirectResponse(url)]: status 307 and a [location] header, whose
    value is [quote(str(url), safe=...)], here [location]. *)
Definition RedirectResponse (location : string) : Response :=
  mkResponse 307 (init_headers [] None ++ [("location", location)]) (Bytes "").

(** Exceptions: Starlette's [HTTPException] and everything else. *)
Inductive Exception : Type :=
| HTTPException (status : Z) (detail : string) (hs : list (string * string))
| Error (name : string).

End Http.
Export Http.

(** ** The URL of a redirect

    [starlette.datastructures.URL(scope=...)] followed by
    [urllib.parse.quote(str(url), safe=":/%#?=@[]!$&'()*+,;")], as
    [RedirectResponse] applies it. *)
Module Url.

Definition codes (s : string) : list nat :=
  map nat_of_ascii (list_ascii_of_string s).

Definition continuation (b : nat) : bool := (128 <=? b)%nat && (b <=? 191)%nat.

(** Whether [bytes.decode()] succeeds: the well-formed UTF-8 byte
    sequences (no overlong form, no surrogate, nothing above U+10FFFF). *)
Fixpoint well_formed (bs : list nat) : bool :=
  match bs with
  | [] => true
  | b0 :: rest =>
      if (b0 <=? 127)%nat then well_formed rest
      else match rest with
      | [] => false
      | b1 :: rest1 =>
          if (194 <=? b0)%nat && (b0 <=? 223)%nat
          then continuation b1 && well_formed rest1
          else match rest1 with
          | [] => false
          | b2 :: rest2 =>
              if (224 <=? b0)%nat && (b0 <=? 239)%nat
              then (if (b0 =? 224)%nat then (160 <=? b1)%nat && (b1 <=? 191)%nat
                    else if (b0 =? 237)%nat then (128 <=? b1)%nat && (b1 <=? 159)%nat
                    else continuation b1)
                   && continuation b2 && well_formed rest2
              else match rest2 with
              | [] => false
              | b3 :: rest3 =>
                  if (240 <=? b0)%nat && (b0 <=? 244)%nat
                  then (if (b0 =? 240)%nat then (144 <=? b1)%nat && (b1 <=? 191)%nat
                        else if (b0 =? 244)%nat then (128 <=? b1)%nat && (b1 <=? 143)%nat
                        else continuation b1)
                       && continuation b2 && continuation b3 && well_formed rest3
                  else false
              end
          end
      end
  end.

Definition utf8_valid (bs : string) : bool := well_formed (codes bs).

(** The bytes [quote] leaves alone: letters, digits, [_.-~] and the
    [safe] characters. *)
Definition unreserved (b : nat) : bool :=
  ((65 <=? b)%nat && (b <=? 90)%nat) || ((97 <=? b)%nat && (b <=? 122)%nat)
  || ((48 <=? b)%nat && (b <=? 57)%nat)
  || existsb (Nat.eqb b) (codes "_.-~")
  || existsb (Nat.eqb b) (codes ":/%#?=@[]!$&'()*+,;").

Definition hex_digit (n : nat) : ascii :=
  if (n <? 10)%nat then ascii_of_nat (48 + n) else ascii_of_nat (55 + n).

Definition quote_byte (b : nat) : string :=
  if unreserved b then String (ascii_of_nat b) EmptyString
  else String "%"%char
         (String (hex_digit (b / 16)) (String (hex_digit (b mod 16)) EmptyString)).

(** [quote] of [bytes]. *)
Definition quote_bytes (bs : string) : string :=
  String.concat "" (map quote_byte (codes bs)).

(** [str.encode("utf-8")] of one code point below 256. *)
Definition utf8_encode (c : nat) : list nat :=
  if (c <? 128)%nat then [c] else [(192 + c / 64)%nat; (128 + c mod 64)%nat].

(** [quote] of a [str]. *)
Definition quote_text (s : string) : string :=
  String.concat "" (map quote_byte (concat (map utf8_encode (codes s)))).

Definition default_port (scheme : string) : option Z :=
  if String.eqb scheme "http" then Some 80
  else if String.eqb scheme "https" then Some 443
  else if String.eqb scheme "ws" then Some 80
  else if String.eqb scheme "wss" then Some 443
  else None.

(** [f"{port}"]. *)
Definition port_text (port : option Z) : string :=
  match port with Some p => pretty p | None => "None" end.

(** The URL up to the query: from the [host] header when there is one,
    else from [server]; an unknown scheme has no default port and the
    lookup raises. *)
Definition origin_and_path (req : Request) : Exception + string :=
  match Headers.get_raw "host" (headers req) with
  | Some host_header => inr (scheme req +:+ "://" +:+ host_header +:+ path req)
  | None =>
      match server req with
      | None => inr (path req)
      | Some (host, port) =>
          match default_port (scheme req) with
          | None => inl (Error "KeyError")
          | Some default =>
              if bool_decide (port = Some default)
              then inr (scheme req +:+ "://" +:+ host +:+ path req)
              else inr (scheme req +:+ "://" +:+ host +:+ ":" +:+ port_text port
                        +:+ path req)
          end
      end
  end.

(** [quote(str(URL(scope=req)), safe=...)].  The query string is decoded
    as UTF-8, which raises on bytes that are not, and [quote] encodes it
    again: well-formed bytes come back, quoted. *)
Definition location (req : Request) : Exception + string :=
  match origin_and_path req with
  | inl e => inl e
  | inr url =>
      match query_string req with
      | EmptyString => inr (quote_text url)
      | query =>
          if utf8_valid query
          then inr (quote_text url +:+ "?" +:+ quote_bytes query)
          else inl (Error "UnicodeDecodeError")
      end
  end.

End Url.

(** ** Coroutines

    An [async def] body as a tree of the effects it may perform before it
    returns or raises: reading and writing the state shared with other
    requests, and the operations during which the handler is not running. *)
Module Coro.

Inductive Effect : Type :=
| Suspend       (* an [await] that yields to the event loop *)
| BlockingIO    (* a blocking read or write *)
| AcquireLock
| ExternalCall.

Inductive Coroutine (St A : Type) : Type :=
| Return (a : A)
| Raise (e : Exception)
| Do (eff : Effect) (k : Coroutine St A)
| Load (k : St -> Coroutine St A)
| Store (s : St) (k : Coroutine St A).

Arguments Return {St A} a.
Arguments Raise {St A} e.
Arguments Do {St A} eff k.
Arguments Load {St A} k.
Arguments Store {St A} s k.

(** [x = await c; k x] *)
Fixpoint bind {St A B} (c : Coroutine St A) (k : A -> Coroutine St B)
  : Coroutine St B :=
  match c with
  | Return a => k a
  | Raise e => Raise e
  | Do eff c' => Do eff (bind c' k)
  | Load f => Load (fun s => bind (f s) k)
  | Store s c' => Store s (bind c' k)
  end.

(** [try: c  except Exception as e: h e] *)
Fixpoint catch {St A} (c : Coroutine St A) (h : Exception -> Coroutine St A)
  : Coroutine St A :=
  match c with
  | Return a => Return a
  | Raise e => h e
  | Do eff c' => Do eff (catch c' h)
  | Load f => Load (fun s => catch (f s) h)
  | Store s c' => Store s (catch c' h)
  end.

(** The outcome of driving a coroutine to completion from state [s]. *)
Record Outcome (St A : Type) : Type := mkOutcome {
  result : Exception + A;
  final : St;
  trace : list Effect
}.
Arguments mkOutcome {St A} result final trace.
Arguments result {St A} o.
Arguments final {St A} o.
Arguments trace {St A} o.

Fixpoint run {St A} (c : Coroutine St A) (s : St) : Outcome St A :=
  match c with
  | Return a => mkOutcome (inr a) s []
  | Raise e => mkOutcome (inl e) s []
  | Do eff c' =>
      let o := run c' s in mkOutcome (result o) (final o) (eff :: trace o)
  | Load f => run (f s) s
  | Store s' c' => run c' s'
  end.

(** A plain function on the state, as a coroutine without suspension. *)
Definition lift {St A} (f : St -> A * St) : Coroutine St A :=
  Load (fun s => Store (snd (f s)) (Return (fst (f s)))).

End Coro.
Export Coro.

Notation "x <- c ;; k" := (Coro.bind c (fun x => k))
  (at level 100, c at next level, right associativity).

(** ** [starlette.middleware.cors.CORSMiddleware] *)
Module CORS.

(** What differs between releases of the middleware. *)
Record Release : Type := mkRelease {
  (** the tuple [ALL_METHODS], which [allow_methods=["*"]] stands for *)
  ALL_METHODS : list string;
  (** the [Vary] value of a preflight response with an explicit origin *)
  preflight_vary : string;
  (** the failures of the preflight checks a release makes beyond origin,
      method and headers, from the request headers *)
  preflight_checks : Headers.t -> list string;
  (** whether, all origins and credentials being allowed, the origin of
      every request is echoed, not only that of a request with a cookie *)
  echo_always : bool;
  (** whether the response to a request without [Origin] gets
      [Vary: Origin] *)
  vary_without_origin : bool
}.

(** Release 0.46, quoted in the comments of this module. *)
Definition release_0_46 : Release :=
  {| ALL_METHODS := ["DELETE"; "GET"; "HEAD"; "OPTIONS"; "PATCH"; "POST"; "PUT"];
     preflight_vary := "Origin";
     preflight_checks := fun _ => [];
     echo_always := false;
     vary_without_origin := false |}.

Definition SAFELISTED_HEADERS : list string :=
  ["Accept"; "Accept-Language"; "Content-Language"; "Content-Type"].

(** The attributes [__init__] leaves on the middleware.
    [allow_origin_regex] stays [None]: the application does not pass it. *)
Record CORSMiddleware : Type := mkCORSMiddleware {
  allow_origins : list string;
  allow_methods : list string;
  allow_headers : list string;
  allow_all_origins : bool;
  allow_all_headers : bool;
  preflight_explicit_allow_origin : bool;
  simple_headers : list (string * string);
  preflight_headers : list (string * string)
}.

Section Middleware.
Variable release : Release.

(** [CORSMiddleware.__init__]. *)
Definition init (origins methods hdrs : list string) (allow_credentials : bool)
    (expose_headers : list string) (max_age : Z) : CORSMiddleware :=
  let methods' := if Text.mem "*" methods then ALL_METHODS release else methods in
  let all_origins := Text.mem "*" origins in
  let all_headers := Text.mem "*" hdrs in
  let explicit := negb all_origins || allow_credentials in
  let simple0 : list (string * string) := [] in
  let simple1 :=
    if all_origins then dict_set "Access-Control-Allow-Origin" "*" simple0
    else simple0 in
  let simple2 :=
    if allow_credentials
    then dict_set "Access-Control-Allow-Credentials" "true" simple1
    else simple1 in
  let simple3 :=
    match expose_headers with
    | [] => simple2
    | _ => dict_set "Access-Control-Expose-Headers"
             (String.concat ", " expose_headers) simple2
    end in
  let pre1 :=
    if explicit then dict_set "Vary" (preflight_vary release) []
    else dict_set "Access-Control-Allow-Origin" "*" [] in
  let pre2 :=
    dict_set "Access-Control-Max-Age" (pretty max_age)
      (dict_set "Access-Control-Allow-Methods" (String.concat ", " methods') pre1) in
  let hdrs' := Text.sorted_set (SAFELISTED_HEADERS ++ hdrs) in
  let pre3 :=
    match hdrs' with
    | [] => pre2
    | _ => if all_headers then pre2
           else dict_set "Access-Control-Allow-Headers"
                  (String.concat ", " hdrs') pre2
    end in
  let pre4 :=
    if allow_credentials
    then dict_set "Access-Control-Allow-Credentials" "true" pre3
    else pre3 in
  {| allow_origins := origins;
     allow_methods := methods';
     allow_headers := map Text.lower hdrs';
     allow_all_origins := all_origins;
     allow_all_headers := all_headers;
     preflight_explicit_allow_origin := explicit;
     simple_headers := simple3;
     preflight_headers := pre4 |}.

Variable self : CORSMiddleware.

Definition is_allowed_origin (origin : string) : bool :=
  if allow_all_origins self then true
  else Text.mem origin (allow_origins self).

(** [preflight_response(request_headers)]; the two headers it reads by
    subscript are passed in, as the caller has found them. *)
Definition preflight_response (request_headers : Headers.t)
    (requested_origin requested_method : string) : Response :=
  let requested_headers :=
    Headers.get "access-control-request-headers" request_headers in
  let headers0 := preflight_headers self in
  let origin_ok := is_allowed_origin requested_origin in
  let headers1 :=
    if origin_ok && preflight_explicit_allow_origin self
    then dict_set "Access-Control-Allow-Origin" requested_origin headers0
    else headers0 in
  let failures1 := if origin_ok then [] else ["origin"] in
  let failures2 :=
    if Text.mem requested_method (allow_methods self) then failures1
    else failures1 ++ ["method"] in
  let headers2 :=
    match requested_headers with
    | Some rh =>
        if allow_all_headers self
        then dict_set "Access-Control-Allow-Headers" rh headers1
        else headers1
    | None => headers1
    end in
  let failures3 :=
    match requested_headers with
    | Some rh =>
        if allow_all_headers self then failures2
        else if existsb
                  (fun header =>
                     negb (Text.mem (Text.strip header) (allow_headers self)))
                  (map Text.lower (Text.split_comma rh))
             then failures2 ++ ["headers"]
             else failures2
    | None => failures2
    end in
  let failures4 := failures3 ++ preflight_checks release request_headers in
  match failures4 with
  | [] => PlainTextResponse "OK" 200 headers2
  | _ => PlainTextResponse ("Disallowed CORS " +:+ String.concat ", " failures4)
           400 headers2
  end.

(** [allow_explicit_origin]. *)
Definition allow_explicit_origin (origin : string) (hs : Headers.t) : Headers.t :=
  Headers.add_vary_header "Origin"
    (Headers.setitem "Access-Control-Allow-Origin" origin hs).

(** [send]: what happens to the headers of the [http.response.start]
    message of the wrapped application, for a request with an origin. *)
Definition send (request_headers : Headers.t) (origin : string)
    (resp : Response) : Response :=
  let hs := Headers.update (simple_headers self) (raw_headers resp) in
  let has_cookie := Headers.contains "cookie" request_headers in
  let hs' :=
    if allow_all_origins self && (has_cookie || echo_always release)
    then allow_explicit_origin origin hs
    else if negb (allow_all_origins self) && is_allowed_origin origin
         then allow_explicit_origin origin hs
         else hs in
  mkResponse (status_code resp) hs' (resp_body resp).

(** The response to a request without an origin: as the wrapped
    application made it, or with [Vary: Origin] added. *)
Definition send_without_origin (resp : Response) : Response :=
  if vary_without_origin release
  then mkResponse (status_code resp)
         (Headers.add_vary_header "Origin" (raw_headers resp)) (resp_body resp)
  else resp.

(** [__call__] around the wrapped ASGI application [inner].  The
    subscript [request_headers["access-control-request-method"]] of
    [preflight_response] is guarded by the membership test. *)
Definition call {St} (inner : Request -> Coroutine St Response)
    (req : Request) : Coroutine St Response :=
  match Headers.get "origin" (headers req) with
  | None =>
      if vary_without_origin release
      then (resp <- inner req ;; Return (send_without_origin resp))
      else inner req
  | Some origin =>
      if String.eqb (method req) "OPTIONS"
         && Headers.contains "access-control-request-method" (headers req)
      then
        match Headers.get "access-control-request-method" (headers req) with
        | Some requested_method =>
            Return (preflight_response (headers req) origin requested_method)
        | None => Raise (Error "KeyError")
        end
      else (resp <- inner req ;; Return (send (headers req) origin resp))
  end.

End Middleware.

End CORS.

(** ** Routing ([starlette.routing]) and the application *)

(** [starlette.routing.Match]. *)
Inductive Match : Type := NONE | PARTIAL | FULL.

(** The routes [FastAPI()] registers for itself in [setup()], with the
    default [openapi_url], [docs_url], [swagger_ui_oauth2_redirect_url]
    and [redoc_url]. *)
Inductive Builtin : Type :=
| openapi | swagger_ui_html | swagger_ui_redirect | redoc_html.

(** The regular expression [compile_path] builds for a path without
    parameters is [^path$], tried with [re.match]: the whole text must be
    the path, except that [$] also accepts one final line feed. *)
Definition path_regex_match (pattern route_path : string) : bool :=
  String.eqb route_path pattern || String.eqb route_path (pattern +:+ Text.LF).

(** [fastapi.utils.is_body_allowed_for_status_code] on an [int]. *)
Definition is_body_allowed_for_status_code (status : Z) : bool :=
  negb ((status <? 200) || (status =? 204) || (status =? 205) || (status =? 304)).

(** [fastapi.exception_handlers.http_exception_handler]. *)
Definition http_exception_handler (status : Z) (detail : string)
    (hs : list (string * string)) : Response :=
  if is_body_allowed_for_status_code status
  then JSONResponse {[ "detail" := detail ]} status hs
  else EmptyResponse status hs.

(** The default 500 of [ServerErrorMiddleware.error_response]. *)
Definition error_response : Response :=
  PlainTextResponse "Internal Server Error" 500 [].

Section Application.

(** The state that outlives a request: the application object and
    whatever else the endpoints can reach. *)
Context {St : Type}.

(** What FastAPI's documentation endpoints answer, and what they do to
    the state (the OpenAPI schema is cached on the application). *)
Variable builtin : Builtin -> Request -> St -> Response * St.

(** The release of the CORS middleware that is installed. *)
Variable release : CORS.Release.

(** Whether the set of methods of a documentation route, [GET] and
    [HEAD], is iterated with [HEAD] first: the order follows the hash
    seed of the process and shows in the [Allow] header. *)
Variable head_first : bool.

(** [starlette.routing.Route] / [fastapi.routing.APIRoute]: the path,
    the accepted methods (empty for [None]) and the ASGI app. *)
Record Route : Type := mkRoute {
  route_path : string;
  route_methods : list string;
  route_app : Request -> Coroutine St Response
}.

Definition method_refused (r : Route) (req : Request) : bool :=
  match route_methods r with
  | [] => false
  | ms => negb (Text.mem (method req) ms)
  end.

(** [Route.matches]. *)
Definition matches (r : Route) (req : Request) : Match :=
  if path_regex_match (route_path r) (path req)
  then if method_refused r req then PARTIAL else FULL
  else NONE.

(** [Route.handle], inside a Starlette application. *)
Definition handle (r : Route) (req : Request) : Coroutine St Response :=
  if method_refused r req
  then Raise (HTTPException 405 "Method Not Allowed"
                [("Allow", String.concat ", " (route_methods r))])
  else route_app r req.

(** The first loop of [Router.app]: the first full match, else the
    first partial one. *)
Fixpoint find_route (routes : list Route) (req : Request)
    (partial : option Route) : option Route :=
  match routes with
  | [] => partial
  | r :: rest =>
      match matches r req with
      | FULL => Some r
      | PARTIAL =>
          find_route rest req
            (match partial with None => Some r | Some _ => partial end)
      | NONE => find_route rest req partial
      end
  end.

(** [Router.not_found], inside a Starlette application. *)
Definition not_found : Coroutine St Response :=
  Raise (HTTPException 404 "Not Found" []).

Definition redirect_scope (req : Request) : Request :=
  mkRequest (method req)
    (if Text.endswith_slash (path req) then Text.rstrip_slash (path req)
     else path req +:+ "/")
    (query_string req) (headers req) (body req) (scheme req) (server req).

(** The redirect of [Router.app]: [RedirectResponse(url=str(redirect_url))]
    with [redirect_url = URL(scope=redirect_scope)], which may raise. *)
Definition redirect (req : Request) : Coroutine St Response :=
  match Url.location (redirect_scope req) with
  | inr location => Return (RedirectResponse location)
  | inl e => Raise e
  end.

(** [Router.app] with [redirect_slashes = True]. *)
Definition router_app (routes : list Route) (req : Request)
  : Coroutine St Response :=
  match find_route routes req None with
  | Some r => handle r req
  | None =>
      if negb (String.eqb (path req) "/")
         && existsb (fun r => match matches r (redirect_scope req) with
                              | NONE => false
                              | _ => true
                              end) routes
      then redirect req
      else not_found
  end.

(** [ExceptionMiddleware] with FastAPI's handler for [HTTPException];
    an exception without a handler is raised again. *)
Definition ExceptionMiddleware (inner : Request -> Coroutine St Response)
    (req : Request) : Coroutine St Response :=
  catch (inner req)
    (fun e => match e with
              | HTTPException status detail hs =>
                  Return (http_exception_handler status detail hs)
              | Error _ => Raise e
              end).

(** [ServerErrorMiddleware]: what the client receives when an exception
    reaches it.  (The exception is then raised again, for the server to
    log; the response has been sent by then.) *)
Definition ServerErrorMiddleware (inner : Request -> Coroutine St Response)
    (req : Request) : Coroutine St Response :=
  catch (inner req) (fun _ => Return error_response).

(** The ASGI app of an [APIRoute] whose endpoint takes no parameter and
    returns a [Dict[str, str]]: the request is not read, the returned
    dict is the content of a [JSONResponse]. *)
Definition get_request_handler (endpoint : Coroutine St (gmap string string))
    (status : Z) (req : Request) : Coroutine St Response :=
  raw <- endpoint ;; Return (JSONResponse raw status []).

(** *** [src/routes/health.py] *)

Definition health_check : Coroutine St (gmap string string) :=
  Return {[ "status" := "ok" ]}.

(** [router = APIRouter()] after [@router.get("/health", ...)]. *)
Definition router : list Route :=
  [ mkRoute "/health" ["GET"] (get_request_handler health_check 200) ].

(** *** [src/main.py] *)

(** A route added with [add_route]: [methods] defaults to [GET], to
    which [Route] adds [HEAD]; the two are kept in a set. *)
Definition builtin_route (p : string) (b : Builtin) : Route :=
  mkRoute p (if head_first then ["HEAD"; "GET"] else ["GET"; "HEAD"])
          (fun req => lift (builtin b req)).

(** [FastAPI()]. *)
Definition FastAPI : list Route :=
  [ builtin_route "/openapi.json" openapi;
    builtin_route "/docs" swagger_ui_html;
    builtin_route "/docs/oauth2-redirect" swagger_ui_redirect;
    builtin_route "/redoc" redoc_html ].

(** The arguments of [app.add_middleware(CORSMiddleware, ...)];
    [expose_headers] and [max_age] keep their defaults. *)
Definition cors : CORS.CORSMiddleware :=
  CORS.init release ["*"] ["*"] ["*"] true [] 600.

(** [app.include_router(health.router, tags=["health"])]. *)
Definition routes : list Route := FastAPI ++ router.

(** The middleware stack of [app]. *)
Definition app (req : Request) : Coroutine St Response :=
  ServerErrorMiddleware
    (CORS.call release cors (ExceptionMiddleware (router_app routes))) req.

(** One request served from state [s]. *)
Definition respond (req : Request) (s : St) : Outcome St Response :=
  run (app req) s.

(** The server answering requests one after the other. *)
Fixpoint serve (reqs : list Request) (s : St)
  : list (Exception + Response) * St :=
  match reqs with
  | [] => ([], s)
  | req :: rest =>
      let o := respond req s in
      let '(rs, s') := serve rest (final o) in
      (result o :: rs, s')
  end.

End Application.

(** ** A sample deployment

    One concrete choice for what the section leaves open, used to run the
    application on explicit requests: release 0.46 of the middleware, a
    state that records whether the OpenAPI schema has been built,
    documentation endpoints that answer with placeholder pages, and a
    server listening on 127.0.0.1:8000. *)
Module Sample.

Definition State : Type := bool.

Definition builtin (b : Builtin) (req : Request) (schema_cached : State)
  : Response * State :=
  match b with
  | openapi =>
      (mkResponse 200 [("content-type", "application/json")]
                  (Bytes "openapi schema"), true)
  | _ =>
      (mkResponse 200 [("content-type", "text/html; charset=utf-8")]
                  (Bytes "html page"), schema_cached)
  end.

Definition release : CORS.Release := CORS.release_0_46.

Definition head_first : bool := false.

Definition respond : Request -> State -> Outcome State Response :=
  respond builtin release head_first.

Definition serve : list Request -> State -> list (Exception + Response) * State :=
  serve builtin release head_first.

(** A request over plain HTTP to the sample server. *)
Definition request (method path query_string : string) (headers : Headers.t)
    (body : string) : Request :=
  mkRequest method path query_string headers body "http"
            (Some ("127.0.0.1", Some 8000)).

(** Requests used as examples. *)
Definition get_health : Request := request "GET" "/health" "" [] "".

Definition get_health_from (origin : string) : Request :=
  request "GET" "/health" "" [("origin", origin)] "".

Definition preflight_health (requested_method : string) : Request :=
  request "OPTIONS" "/health" ""
    [("origin", "http://example.com");
     ("access-control-request-method", requested_method)] "".

(** The byte 0xFF, which no UTF-8 text contains. *)
Definition not_utf8 : string := String "255"%char EmptyString.

End Sample.

(** ** Vocabulary of the properties *)

(** The payload of the health endpoint and the response its route builds
    from it. *)
Definition payload : gmap string string := {[ "status" := "ok" ]}.

Definition health_response : Response := JSONResponse payload 200 [].

(** A CORS preflight, as [CORSMiddleware.__call__] recognises it. *)
Definition is_preflight (req : Request) : bool :=
  Headers.contains "origin" (headers req)
  && String.eqb (method req) "OPTIONS"
  && Headers.contains "access-control-request-method" (headers req).

(** What the CORS middleware lets out when the wrapped application
    answered [resp] to a request that is not a preflight. *)
Definition cors_out (release : CORS.Release) (request_headers : Headers.t)
    (resp : Response) : Response :=
  match Headers.get "origin" request_headers with
  | None => CORS.send_without_origin release resp
  | Some origin => CORS.send release (cors release) request_headers origin resp
  end.

(** The paths some route of [rs] accepts. *)
Definition registered {St} (rs : list (Route (St := St))) (p : string) : bool :=
  existsb (fun r => path_regex_match (route_path r) p) rs.

(** The requests some route of [rs] accepts, path and method. *)
Definition accepted {St} (rs : list (Route (St := St))) (req : Request) : bool :=
  existsb (fun r => match matches r req with FULL => true | _ => false end) rs.

(** The requests [Router.app] redirects when no route accepts their
    path: the path with its trailing slashes removed, or with one added,
    is a registered one. *)
Definition redirectable {St} (rs : list (Route (St := St))) (req : Request) : bool :=
  negb (String.eqb (path req) "/") && registered rs (path (redirect_scope req)).

(** The failures of a preflight of this application: with every origin
    and every header allowed, only the method and the checks of the
    release can fail. *)
Definition preflight_failures (release : CORS.Release) (hs : Headers.t)
    (requested_method : string) : list string :=
  (if Text.mem requested_method (CORS.ALL_METHODS release) then [] else ["method"])
  ++ CORS.preflight_checks release hs.

(** The response headers of the CORS protocol, as they appear in
    [raw_headers]. *)
Definition ALLOW_ORIGIN : string := "access-control-allow-origin".
Definition ALLOW_CREDENTIALS : string := "access-control-allow-credentials".
Definition ALLOW_METHODS : string := "access-control-allow-methods".
Definition ALLOW_HEADERS : string := "access-control-allow-headers".

(** * Properties *)

(** ** Running coroutines *)

Lemma run_bind {St A B} (c : Coroutine St A) (k : A -> Coroutine St B) (s : St) :
  run (Coro.bind c k) s =
  match result (run c s) with
  | inl e => mkOutcome (inl e) (final (run c s)) (trace (run c s))
  | inr a =>
      let o := run (k a) (final (run c s)) in
      mkOutcome (result o) (final o) (trace (run c s) ++ trace o)
  end.
Proof.
  revert s. induction c as [a|e|eff c IH|f IH|s' c IH]; intros s; simpl.
  - by destruct (run (k a) s).
  - reflexivity.
  - rewrite IH. by destruct (result (run c s)).
  - apply IH.
  - apply IH.
Qed.

Lemma run_catch {St A} (c : Coroutine St A) (h : Exception -> Coroutine St A)
    (s : St) :
  run (catch c h) s =
  match result (run c s) with
  | inr a => mkOutcome (inr a) (final (run c s)) (trace (run c s))
  | inl e =>
      let o := run (h e) (final (run c s)) in
      mkOutcome (result o) (final o) (trace (run c s) ++ trace o)
  end.
Proof.
  revert s. induction c as [a|e|eff c IH|f IH|s' c IH]; intros s; simpl.
  - reflexivity.
  - by destruct (run (h e) s).
  - rewrite IH. by destruct (result (run c s)).
  - apply IH.
  - apply IH.
Qed.

(** ** Header lists *)

Lemma get_raw_remove_ne (k k' : string) (hs : Headers.t) :
  k <> k' -> Headers.get_raw k (Headers.remove_raw k' hs) = Headers.get_raw k hs.
Proof.
  intros Hne. induction hs as [|[k0 v0] hs IH]; simpl; [reflexivity|].
  destruct (String.eqb_spec k0 k') as [->|Hk0]; simpl.
  - destruct (String.eqb_spec k' k) as [->|_]; [done | exact IH].
  - by rewrite IH.
Qed.

Lemma get_raw_set_eq (k v : string) (hs : Headers.t) :
  Headers.get_raw k (Headers.set_raw k v hs) = Some v.
Proof.
  induction hs as [|[k0 v0] hs IH]; simpl.
  - by rewrite String.eqb_refl.
  - destruct (String.eqb_spec k0 k) as [->|Hk0]; simpl.
    + by rewrite String.eqb_refl.
    + destruct (String.eqb_spec k0 k); [done | exact IH].
Qed.

Lemma get_raw_set_ne (k k' v : string) (hs : Headers.t) :
  k <> k' -> Headers.get_raw k (Headers.set_raw k' v hs) = Headers.get_raw k hs.
Proof.
  intros Hne. induction hs as [|[k0 v0] hs IH]; simpl.
  - destruct (String.eqb_spec k' k) as [->|_]; done.
  - destruct (String.eqb_spec k0 k') as [->|Hk0]; simpl.
    + destruct (String.eqb_spec k' k) as [->|_]; [done|].
      by apply get_raw_remove_ne.
    + by rewrite IH.
Qed.

(** ** The application *)

Lemma cors_out_status (release : CORS.Release) (hs : Headers.t) (resp : Response) :
  status_code (cors_out release hs resp) = status_code resp.
Proof.
  unfold cors_out, CORS.send_without_origin.
  destruct (Headers.get "origin" hs); [reflexivity|].
  by destruct (CORS.vary_without_origin release).
Qed.

Lemma cors_out_body (release : CORS.Release) (hs : Headers.t) (resp : Response) :
  resp_body (cors_out release hs resp) = resp_body resp.
Proof.
  unfold cors_out, CORS.send_without_origin.
  destruct (Headers.get "origin" hs); [reflexivity|].
  by destruct (CORS.vary_without_origin release).
Qed.

(** *** What the CORS middleware does to headers *)

Lemma send_raw_headers (release : CORS.Release) (hs : Headers.t)
    (origin : string) (resp : Response) :
  raw_headers (CORS.send release (cors release) hs origin resp) =
  let base :=
    Headers.set_raw ALLOW_CREDENTIALS "true"
      (Headers.set_raw ALLOW_ORIGIN "*" (raw_headers resp)) in
  if Headers.contains "cookie" hs || CORS.echo_always release
  then Headers.add_vary_header "Origin" (Headers.set_raw ALLOW_ORIGIN origin base)
  else base.
Proof. reflexivity. Qed.

Lemma get_add_vary_ne (k vary : string) (hs : Headers.t) :
  Text.lower k <> "vary" ->
  Headers.get k (Headers.add_vary_header vary hs) = Headers.get k hs.
Proof.
  intros Hk. unfold Headers.add_vary_header, Headers.get, Headers.setitem.
  destruct (Headers.get_raw (Text.lower "vary") hs);
    by apply get_raw_set_ne.
Qed.

Lemma get_add_vary (vary : string) (hs : Headers.t) :
  Headers.get "vary" (Headers.add_vary_header vary hs)
  = Some (match Headers.get "vary" hs with
          | Some existing => existing +:+ ", " +:+ vary
          | None => vary
          end).
Proof.
  unfold Headers.add_vary_header.
  destruct (Headers.get "vary" hs); apply get_raw_set_eq.
Qed.

(** Without an [Origin] header only [Vary] can change. *)
Lemma send_without_origin_get (release : CORS.Release) (k : string)
    (resp : Response) :
  Text.lower k <> "vary" ->
  Headers.get k (raw_headers (CORS.send_without_origin release resp))
  = Headers.get k (raw_headers resp).
Proof.
  intros Hv. unfold CORS.send_without_origin.
  destruct (CORS.vary_without_origin release); [|reflexivity].
  by apply get_add_vary_ne.
Qed.

(** Headers the middleware does not set pass through unchanged. *)
Lemma cors_out_get_other (release : CORS.Release) (k : string) (hs : Headers.t)
    (resp : Response) :
  Text.lower k <> ALLOW_ORIGIN ->
  Text.lower k <> ALLOW_CREDENTIALS ->
  Text.lower k <> "vary" ->
  Headers.get k (raw_headers (cors_out release hs resp))
  = Headers.get k (raw_headers resp).
Proof.
  intros Ho Hc Hv. unfold cors_out.
  destruct (Headers.get "origin" hs) as [origin|];
    [|by apply send_without_origin_get].
  rewrite send_raw_headers. cbv zeta.
  destruct (Headers.contains "cookie" hs || CORS.echo_always release).
  - rewrite get_add_vary_ne by assumption. unfold Headers.get.
    by rewrite !get_raw_set_ne by assumption.
  - unfold Headers.get. by rewrite !get_raw_set_ne by assumption.
Qed.

(** A request that bears an [Origin] header gets the two headers of a
    simple CORS response. *)
Lemma cors_out_allow (release : CORS.Release) (hs : Headers.t) (resp : Response)
    (origin : string) :
  Headers.get "origin" hs = Some origin ->
  (Headers.get ALLOW_ORIGIN (raw_headers (cors_out release hs resp)) = Some "*"
   \/ Headers.get ALLOW_ORIGIN (raw_headers (cors_out release hs resp))
      = Some origin)
  /\ Headers.get ALLOW_CREDENTIALS (raw_headers (cors_out release hs resp))
     = Some "true".
Proof.
  intros Ho. unfold cors_out. rewrite Ho, send_raw_headers. cbv zeta.
  destruct (Headers.contains "cookie" hs || CORS.echo_always release).
  - rewrite !get_add_vary_ne by (vm_compute; discriminate). unfold Headers.get.
    change (Text.lower ALLOW_ORIGIN) with ALLOW_ORIGIN.
    change (Text.lower ALLOW_CREDENTIALS) with ALLOW_CREDENTIALS.
    split.
    + right. apply get_raw_set_eq.
    + rewrite get_raw_set_ne by discriminate. apply get_raw_set_eq.
  - unfold Headers.get.
    change (Text.lower ALLOW_ORIGIN) with ALLOW_ORIGIN.
    change (Text.lower ALLOW_CREDENTIALS) with ALLOW_CREDENTIALS.
    split.
    + left. rewrite get_raw_set_ne by discriminate. apply get_raw_set_eq.
    + apply get_raw_set_eq.
Qed.

(** The preflight response of this application: the origin is echoed,
    the methods of [ALL_METHODS] are allowed, requested headers are
    mirrored; the status tells whether a check failed. *)
Lemma preflight_response_facts (release : CORS.Release) (hs : Headers.t)
    (origin requested_method : string) :
  let resp := CORS.preflight_response release (cors release) hs origin
                requested_method in
  let failures := preflight_failures release hs requested_method in
  status_code resp = (match failures with [] => 200 | _ => 400 end)
  /\ resp_body resp
     = Bytes (match failures with
              | [] => "OK"
              | _ => "Disallowed CORS " +:+ String.concat ", " failures
              end)
  /\ Headers.get ALLOW_ORIGIN (raw_headers resp) = Some origin
  /\ Headers.get ALLOW_CREDENTIALS (raw_headers resp) = Some "true"
  /\ Headers.get ALLOW_METHODS (raw_headers resp)
     = Some (String.concat ", " (CORS.ALL_METHODS release))
  /\ Headers.get ALLOW_HEADERS (raw_headers resp)
     = Headers.get "access-control-request-headers" hs.
Proof.
  cbv zeta. unfold CORS.preflight_response, preflight_failures.
  change (CORS.allow_methods (cors release)) with (CORS.ALL_METHODS release).
  destruct (Text.mem requested_method (CORS.ALL_METHODS release));
    destruct (CORS.preflight_checks release hs);
    destruct (Headers.get "access-control-request-headers" hs) as [rh|];
    repeat split; reflexivity.
Qed.

(** The URL of a redirect fails with a plain exception only. *)
Lemma location_error (req : Request) (e : Exception) :
  Url.location req = inl e -> exists name, e = Error name.
Proof.
  unfold Url.location, Url.origin_and_path.
  destruct (Headers.get_raw "host" (headers req)).
  - destruct (query_string req); [discriminate|].
    destruct (Url.utf8_valid _); [discriminate|]. intros [= <-]. eauto.
  - destruct (server req) as [[host port]|].
    + destruct (Url.default_port (scheme req)); [|intros [= <-]; eauto].
      destruct (bool_decide _);
        (destruct (query_string req); [discriminate|]);
        (destruct (Url.utf8_valid _); [discriminate|]); intros [= <-]; eauto.
    + destruct (query_string req); [discriminate|].
      destruct (Url.utf8_valid _); [discriminate|]. intros [= <-]. eauto.
Qed.

Lemma path_regex_match_cases (pattern p : string) :
  path_regex_match pattern p = true -> p = pattern \/ p = pattern +:+ Text.LF.
Proof.
  unfold path_regex_match. intros [H|H]%orb_prop; apply String.eqb_eq in H; auto.
Qed.

Section Properties.

Context {St : Type}.
Variable builtin : Builtin -> Request -> St -> Response * St.
Variable release : CORS.Release.
Variable head_first : bool.

Local Abbreviation Routes := (routes builtin head_first).
Local Abbreviation Docs := (FastAPI builtin head_first).
Local Abbreviation Inner := (ExceptionMiddleware (router_app Routes)).
Local Abbreviation Cors := (CORS.call release (cors release) Inner).
Local Abbreviation App := (app builtin release head_first).
Local Abbreviation Respond := (respond builtin release head_first).
Local Abbreviation Serve := (serve builtin release head_first).

(** The handler: it returns at once, whatever the state. *)
Lemma run_health_check (s : St) :
  run health_check s = mkOutcome (inr payload) s [].
Proof. reflexivity. Qed.

(** Below the middleware, [GET /health] is answered by the health route. *)
Lemma inner_health (req : Request) :
  method req = "GET" -> path req = "/health" ->
  Inner req = Return health_response.
Proof.
  destruct req as [m p q h b sch srv]; simpl; intros -> ->. reflexivity.
Qed.

Lemma get_is_not_preflight (req : Request) :
  method req = "GET" -> is_preflight req = false.
Proof.
  intros Hm. unfold is_preflight. rewrite Hm. simpl.
  by rewrite andb_false_r.
Qed.

(** The CORS middleware on a request that is not a preflight. *)
Lemma cors_call_not_preflight (req : Request) :
  is_preflight req = false ->
  Cors req =
  match Headers.get "origin" (headers req) with
  | None =>
      if CORS.vary_without_origin release
      then (resp <- Inner req ;; Return (CORS.send_without_origin release resp))
      else Inner req
  | Some origin =>
      resp <- Inner req ;;
      Return (CORS.send release (cors release) (headers req) origin resp)
  end.
Proof.
  unfold is_preflight, CORS.call, Headers.contains. intros Hpre.
  destruct (Headers.get "origin" (headers req)) as [origin|]; [|reflexivity].
  simpl in Hpre. by rewrite Hpre.
Qed.

(** Around an application that answers [resp], the middleware stack
    only rewrites headers, unless the request is a preflight. *)
Lemma app_of_inner (req : Request) (resp : Response) :
  is_preflight req = false ->
  Inner req = Return resp ->
  App req = Return (cors_out release (headers req) resp).
Proof.
  intros Hpre Hin. unfold app, ServerErrorMiddleware.
  rewrite cors_call_not_preflight by assumption.
  unfold cors_out, CORS.send_without_origin. rewrite Hin.
  destruct (Headers.get "origin" (headers req)); [reflexivity|].
  by destruct (CORS.vary_without_origin release).
Qed.

(** Around an application that raises, the stack answers with the
    server error. *)
Lemma app_of_inner_raise (req : Request) (e : Exception) :
  is_preflight req = false ->
  Inner req = Raise e ->
  App req = Return error_response.
Proof.
  intros Hpre Hin. unfold app, ServerErrorMiddleware.
  rewrite cors_call_not_preflight by assumption. rewrite Hin.
  destruct (Headers.get "origin" (headers req)); [reflexivity|].
  by destruct (CORS.vary_without_origin release).
Qed.

Lemma app_health (req : Request) :
  method req = "GET" -> path req = "/health" ->
  App req = Return (cors_out release (headers req) health_response).
Proof.
  intros Hm Hp. apply app_of_inner.
  - by apply get_is_not_preflight.
  - by apply inner_health.
Qed.

Lemma respond_health (req : Request) (s : St) :
  method req = "GET" -> path req = "/health" ->
  Respond req s
  = mkOutcome (inr (cors_out release (headers req) health_response)) s [].
Proof.
  intros Hm Hp. unfold respond. by rewrite app_health.
Qed.

(** The middleware leaves the content type of the health response alone. *)
Lemma cors_out_health_content_type (hs : Headers.t) :
  Headers.get "content-type" (raw_headers (cors_out release hs health_response))
  = Some "application/json".
Proof. by rewrite cors_out_get_other by (vm_compute; discriminate). Qed.

(** C1. Every request with method GET and path /health, whatever its
    query string, headers and body, and whatever the state of the
    server, is answered with status 200, the JSON object
    {"status": "ok"} as body, and content type application/json. *)
Theorem get_health_ok (req : Request) (s : St) :
  method req = "GET" -> path req = "/health" ->
  exists resp,
    result (Respond req s) = inr resp
    /\ status_code resp = 200
    /\ resp_body resp = JSON {[ "status" := "ok" ]}
    /\ Headers.get "content-type" (raw_headers resp) = Some "application/json".
Proof.
  intros Hm Hp. exists (cors_out release (headers req) health_response).
  rewrite respond_health by assumption.
  split; [reflexivity|].
  rewrite cors_out_status, cors_out_body, cors_out_health_content_type.
  repeat split.
Qed.

(** C4. A sequence of repeated identical GET /health requests gets the
    same response every time, the one the first request gets, and
    leaves the state of the server as it was before the first one. *)
Theorem repeated_health_requests (req : Request) (n : nat) (s : St) :
  method req = "GET" -> path req = "/health" ->
  exists resp,
    result (Respond req s) = inr resp
    /\ Serve (repeat req n) s = (repeat (inr resp) n, s).
Proof.
  intros Hm Hp. exists (cors_out release (headers req) health_response).
  rewrite respond_health by assumption. split; [reflexivity|].
  induction n as [|n IH]; simpl; [reflexivity|].
  rewrite respond_health by assumption. simpl. by rewrite IH.
Qed.

(** C5. The health handler does not depend on request data: for two
    GET /health requests, however their query strings, headers and
    bodies differ, the handler's route produces the same response from
    the same coroutine; the responses sent, from any two states, agree
    on status, body and content type. *)
Theorem health_handler_noninterference (r1 r2 : Request) (s1 s2 : St) :
  method r1 = "GET" -> path r1 = "/health" ->
  method r2 = "GET" -> path r2 = "/health" ->
  get_request_handler (St := St) health_check 200 r1
    = get_request_handler health_check 200 r2
  /\ Inner r1 = Inner r2
  /\ result (run (Inner r1) s1) = result (run (Inner r2) s2)
  /\ exists resp1 resp2,
       result (Respond r1 s1) = inr resp1
       /\ result (Respond r2 s2) = inr resp2
       /\ status_code resp1 = status_code resp2
       /\ resp_body resp1 = resp_body resp2
       /\ Headers.get "content-type" (raw_headers resp1)
          = Headers.get "content-type" (raw_headers resp2).
Proof.
  intros Hm1 Hp1 Hm2 Hp2.
  rewrite !inner_health by assumption.
  repeat split.
  exists (cors_out release (headers r1) health_response),
         (cors_out release (headers r2) health_response).
  rewrite !respond_health by assumption.
  rewrite !cors_out_status, !cors_out_body, !cors_out_health_content_type.
  repeat split.
Qed.

(** C6. The health handler cannot fail: it is a bare return of its
    payload, so from every state it returns normally with the fixed
    payload, and a GET /health request is never answered through the
    error path (its result is a response with status 200, not 500). *)
Theorem health_check_cannot_fail (req : Request) (s : St) :
  method req = "GET" -> path req = "/health" ->
  health_check (St := St) = Return {[ "status" := "ok" ]}
  /\ result (run health_check s) = inr {[ "status" := "ok" ]}
  /\ result (run (get_request_handler health_check 200 req) s)
     = inr health_response
  /\ exists resp, result (Respond req s) = inr resp /\ status_code resp = 200.
Proof.
  intros Hm Hp. repeat split.
  exists (cors_out release (headers req) health_response).
  rewrite respond_health by assumption. by rewrite cors_out_status.
Qed.

(** C7. The health handler has no side effect: it neither writes the
    shared state (the state after an invocation is the state before)
    nor reads it (its result is the same from any two states), and a
    whole GET /health exchange leaves the state unchanged. *)
Theorem health_check_no_side_effect (req : Request) (s s' : St) :
  method req = "GET" -> path req = "/health" ->
  final (run health_check s) = s
  /\ result (run health_check s) = result (run health_check s')
  /\ final (run (get_request_handler health_check 200 req) s) = s
  /\ final (Respond req s) = s.
Proof.
  intros Hm Hp. repeat split.
  by rewrite respond_health.
Qed.

(** C8. The health handler never suspends: driving its coroutine to
    completion meets no suspension point, no blocking I/O, no lock
    acquisition and no external call, for the handler alone, for its
    route and for a whole GET /health exchange. *)
Theorem health_check_never_suspends (req : Request) (s : St) :
  method req = "GET" -> path req = "/health" ->
  trace (run health_check s) = []
  /\ trace (run (get_request_handler health_check 200 req) s) = []
  /\ trace (Respond req s) = [].
Proof.
  intros Hm Hp. repeat split.
  by rewrite respond_health.
Qed.

(** *** Requests in general *)

Lemma find_route_unregistered (rs : list (Route (St := St))) (req : Request)
    (partial : option (Route (St := St))) :
  registered rs (path req) = false -> find_route rs req partial = partial.
Proof.
  revert partial. induction rs as [|r rs IH]; intros partial; simpl;
    [reflexivity|].
  intros [Hr Hrs]%orb_false_elim. unfold matches. rewrite Hr. by apply IH.
Qed.

Lemma find_route_In (rs : list (Route (St := St))) (req : Request)
    (partial : option (Route (St := St))) (r : Route (St := St)) :
  find_route rs req partial = Some r -> In r rs \/ partial = Some r.
Proof.
  revert partial. induction rs as [|r0 rs IH]; intros partial; simpl;
    [by right|].
  destruct (matches r0 req).
  - intros [H| ->]%IH; [left; by right | by right].
  - intros [H|H]%IH; [left; by right|].
    destruct partial; [by right | left; left; congruence].
  - intros [= ->]. left; by left.
Qed.

(** When no route is found, no route accepts the path. *)
Lemma find_route_none (rs : list (Route (St := St))) (req : Request)
    (partial : option (Route (St := St))) :
  find_route rs req partial = None ->
  partial = None /\ registered rs (path req) = false.
Proof.
  revert partial. induction rs as [|r rs IH]; intros partial; simpl; [by split|].
  unfold matches at 1.
  destruct (path_regex_match (route_path r) (path req)); simpl.
  - destruct (method_refused r req); [|discriminate].
    intros [H _]%IH. by destruct partial.
  - apply IH.
Qed.

(** When no route accepts the request but some route accepts its path,
    the route found refuses the method. *)
Lemma find_route_refused (rs : list (Route (St := St))) (req : Request)
    (partial : option (Route (St := St))) :
  accepted rs req = false ->
  (forall r0, partial = Some r0 -> method_refused r0 req = true) ->
  registered rs (path req) = true \/ partial <> None ->
  exists r, find_route rs req partial = Some r /\ method_refused r req = true.
Proof.
  revert partial. induction rs as [|r rs IH]; intros partial; simpl.
  - intros _ Hinv [H|H]; [discriminate|].
    destruct partial as [r0|]; [eauto | done].
  - unfold matches.
    destruct (path_regex_match (route_path r) (path req)); simpl.
    + destruct (method_refused r req) eqn:Href; [|discriminate].
      intros Hacc Hinv _. apply IH; [exact Hacc | |].
      * intros r0. destruct partial as [r1|]; intros [= <-]; auto.
      * right. by destruct partial.
    + intros Hacc Hinv [H|H]; apply IH; auto.
Qed.

Lemma redirect_candidates (rs : list (Route (St := St))) (req : Request) :
  existsb (fun r => match matches r req with NONE => false | _ => true end) rs
  = registered rs (path req).
Proof.
  induction rs as [|r rs IH]; simpl; [reflexivity|]. rewrite IH.
  unfold matches.
  by destruct (path_regex_match (route_path r) (path req)),
              (method_refused r req).
Qed.

(** Every registered endpoint answers. *)
Lemma route_app_runs (r : Route (St := St)) (req : Request) (s : St) :
  In r Routes -> exists resp, result (run (route_app r req) s) = inr resp.
Proof.
  intros Hin. repeat (destruct Hin as [<-|Hin]; [eexists; reflexivity|]).
  destruct Hin.
Qed.

(** Below the middleware, a path no route accepts is redirected when
    changing its trailing slash makes it a registered path, and is not
    found otherwise; the redirect raises when its URL cannot be built. *)
Lemma inner_unregistered (req : Request) :
  registered Routes (path req) = false ->
  Inner req =
  if redirectable Routes req
  then match Url.location (redirect_scope req) with
       | inr location => Return (RedirectResponse location)
       | inl e => Raise e
       end
  else Return (http_exception_handler 404 "Not Found" []).
Proof.
  intros Hreg. unfold ExceptionMiddleware, router_app, redirectable.
  rewrite find_route_unregistered by assumption.
  rewrite redirect_candidates.
  destruct (_ && _); [|reflexivity].
  unfold redirect.
  destruct (Url.location (redirect_scope req)) as [e|location] eqn:Hloc;
    [|reflexivity].
  by destruct (location_error _ _ Hloc) as [name ->].
Qed.

(** Below the middleware, a request whose path some route accepts but
    which no route accepts with its method is refused. *)
Lemma inner_refused (req : Request) :
  accepted Routes req = false ->
  registered Routes (path req) = true ->
  exists allow,
    Inner req =
    Return (http_exception_handler 405 "Method Not Allowed" [("Allow", allow)]).
Proof.
  intros Hacc Hreg.
  destruct (find_route_refused Routes req None Hacc) as (r & Hfind & Href);
    [discriminate | by left |].
  unfold ExceptionMiddleware, router_app, handle. rewrite Hfind, Href.
  eexists. reflexivity.
Qed.

(** Below the middleware, a path the health route accepts is answered
    by that route: with the payload for GET, with a refusal otherwise. *)
Lemma inner_health_path (req : Request) :
  path_regex_match "/health" (path req) = true ->
  Inner req =
  Return (if String.eqb (method req) "GET" then health_response
          else http_exception_handler 405 "Method Not Allowed" [("Allow", "GET")]).
Proof.
  destruct req as [m p q h b sch srv]. simpl. intros Hhealth.
  destruct (String.eqb m "GET") eqn:Hm;
    apply path_regex_match_cases in Hhealth as [-> | ->];
    unfold ExceptionMiddleware, router_app; simpl;
    unfold matches, method_refused; simpl; rewrite Hm; simpl;
    unfold handle, method_refused; simpl; rewrite Hm; reflexivity.
Qed.

(** An exception comes out of the routes only from a redirect whose URL
    cannot be built. *)
Lemma inner_raises (req : Request) (s : St) (e : Exception) :
  result (run (Inner req) s) = inl e ->
  registered Routes (path req) = false
  /\ redirectable Routes req = true
  /\ Url.location (redirect_scope req) = inl e
  /\ Inner req = Raise e.
Proof.
  destruct (find_route Routes req None) as [r|] eqn:Hfind.
  - unfold ExceptionMiddleware, router_app. rewrite Hfind, run_catch.
    unfold handle. destruct (method_refused r req); [discriminate|].
    apply find_route_In in Hfind as [Hin|[=]].
    destruct (route_app_runs r req s Hin) as [resp Hresp].
    rewrite Hresp. discriminate.
  - apply find_route_none in Hfind as [_ Hreg].
    rewrite (inner_unregistered req Hreg).
    destruct (redirectable Routes req); [|discriminate].
    destruct (Url.location (redirect_scope req)) as [e'|location];
      [|discriminate].
    simpl. intros [= ->]. by repeat split.
Qed.

(** How a request that is not a preflight is answered, from what the
    routes do with it. *)
Lemma respond_not_preflight (req : Request) (s : St) :
  is_preflight req = false ->
  final (Respond req s) = final (run (Inner req) s)
  /\ trace (Respond req s) = trace (run (Inner req) s)
  /\ match result (run (Inner req) s) with
     | inr routed =>
         result (run (Cors req) s) = inr (cors_out release (headers req) routed)
         /\ result (Respond req s) = inr (cors_out release (headers req) routed)
     | inl e =>
         result (run (Cors req) s) = inl e
         /\ result (Respond req s) = inr error_response
     end.
Proof.
  intros Hpre. unfold respond, app, ServerErrorMiddleware. rewrite run_catch.
  rewrite cors_call_not_preflight by assumption.
  unfold cors_out, CORS.send_without_origin.
  destruct (Headers.get "origin" (headers req)) as [origin|].
  - rewrite run_bind.
    destruct (result (run (Inner req) s)); simpl; rewrite ?app_nil_r; by repeat split.
  - destruct (CORS.vary_without_origin release).
    + rewrite run_bind.
      destruct (result (run (Inner req) s)); simpl; rewrite ?app_nil_r;
        by repeat split.
    + destruct (result (run (Inner req) s)); simpl; rewrite ?app_nil_r;
        by repeat split.
Qed.

Lemma preflight_inv (req : Request) :
  is_preflight req = true ->
  method req = "OPTIONS"
  /\ exists origin requested_method,
       Headers.get "origin" (headers req) = Some origin
       /\ Headers.get "access-control-request-method" (headers req)
          = Some requested_method.
Proof.
  unfold is_preflight, Headers.contains.
  destruct (Headers.get "origin" (headers req)) as [origin|]; [|discriminate].
  destruct (Headers.get "access-control-request-method" (headers req))
    as [requested_method|]; [|by rewrite andb_false_r].
  simpl. rewrite andb_true_r. intros Hm%String.eqb_eq. eauto.
Qed.

Lemma cors_call_preflight (req : Request) (origin requested_method : string) :
  method req = "OPTIONS" ->
  Headers.get "origin" (headers req) = Some origin ->
  Headers.get "access-control-request-method" (headers req)
    = Some requested_method ->
  Cors req
  = Return (CORS.preflight_response release (cors release) (headers req) origin
              requested_method).
Proof.
  intros Hm Ho Hrm. unfold CORS.call, Headers.contains.
  by rewrite Ho, Hm, Hrm.
Qed.

Lemma respond_preflight (req : Request) (s : St) (origin requested_method : string) :
  method req = "OPTIONS" ->
  Headers.get "origin" (headers req) = Some origin ->
  Headers.get "access-control-request-method" (headers req)
    = Some requested_method ->
  Respond req s
  = mkOutcome
      (inr (CORS.preflight_response release (cors release) (headers req) origin
              requested_method))
      s [].
Proof.
  intros Hm Ho Hrm. unfold respond, app, ServerErrorMiddleware.
  by rewrite (cors_call_preflight req origin requested_method).
Qed.

(** The requests the routes of this application accept: GET and HEAD on
    a documentation path, GET on the health path (each path as its
    pattern matches it). *)
Lemma accepted_routes (req : Request) :
  accepted Routes req
  = registered Docs (path req)
    && (String.eqb (method req) "GET" || String.eqb (method req) "HEAD")
    || path_regex_match "/health" (path req) && String.eqb (method req) "GET".
Proof.
  unfold accepted, registered, routes, FastAPI, router, builtin_route, matches,
    method_refused.
  simpl.
  destruct head_first; simpl;
    destruct (path_regex_match "/openapi.json" (path req)),
             (path_regex_match "/docs" (path req)),
             (path_regex_match "/docs/oauth2-redirect" (path req)),
             (path_regex_match "/redoc" (path req)),
             (path_regex_match "/health" (path req)),
             (String.eqb (method req) "GET"),
             (String.eqb (method req) "HEAD"); reflexivity.
Qed.

(** C2 (amended). Take a request that is not a CORS preflight and that
    no registered route accepts with its method ([accepted_routes]):
    every request whose path is not /health or whose method is not GET,
    apart from GET /health written with a final line feed and from GET
    and HEAD on the framework's documentation paths (with or without a
    final line feed).  It gets the framework's default
    answer and never a 200: 405 Method Not Allowed when some route
    accepts its path (with Allow: GET on the health path); otherwise a
    307 redirect when changing its trailing slash gives a registered
    path (the server error 500 if the URL of the redirect cannot be
    built); otherwise 404 Not Found.  The state of the server is
    unchanged. *)
Theorem unrouted_request_default (req : Request) (s : St) :
  is_preflight req = false ->
  accepted Routes req = false ->
  exists resp,
    Respond req s = mkOutcome (inr resp) s []
    /\ status_code resp <> 200
    /\ ((registered Routes (path req) = true
         /\ status_code resp = 405
         /\ resp_body resp = JSON {[ "detail" := "Method Not Allowed" ]})
        \/ (registered Routes (path req) = false
            /\ redirectable Routes req = true
            /\ ((exists location,
                   Url.location (redirect_scope req) = inr location
                   /\ status_code resp = 307
                   /\ Headers.get "location" (raw_headers resp) = Some location)
                \/ (exists e,
                      Url.location (redirect_scope req) = inl e
                      /\ resp = error_response)))
        \/ (registered Routes (path req) = false
            /\ redirectable Routes req = false
            /\ status_code resp = 404
            /\ resp_body resp = JSON {[ "detail" := "Not Found" ]}))
    /\ (path_regex_match "/health" (path req) = true ->
        status_code resp = 405
        /\ Headers.get "allow" (raw_headers resp) = Some "GET").
Proof.
  intros Hpre Hacc.
  destruct (registered Routes (path req)) eqn:Hreg.
  - destruct (inner_refused req Hacc Hreg) as [allow Hin].
    exists (cors_out release (headers req)
              (http_exception_handler 405 "Method Not Allowed" [("Allow", allow)])).
    split.
    { unfold respond. by rewrite (app_of_inner req _ Hpre Hin). }
    rewrite cors_out_status, cors_out_body.
    split; [discriminate|]. split; [left; by repeat split|].
    intros Hhealth. split; [reflexivity|].
    rewrite (inner_health_path req Hhealth) in Hin.
    destruct (String.eqb (method req) "GET"); [discriminate|].
    injection Hin as <-.
    by rewrite cors_out_get_other by (vm_compute; discriminate).
  - pose proof (inner_unregistered req Hreg) as Hin.
    assert (Hnohealth : path_regex_match "/health" (path req) = true -> False).
    { intros Hhealth. unfold registered, routes in Hreg.
      rewrite existsb_app in Hreg. apply orb_false_elim in Hreg as [_ Hreg].
      simpl in Hreg. rewrite Hhealth in Hreg. discriminate. }
    destruct (redirectable Routes req).
    + destruct (Url.location (redirect_scope req)) as [e|location].
      * exists error_response. split.
        { unfold respond. by rewrite (app_of_inner_raise req e Hpre Hin). }
        split; [discriminate|]. split; [|by intros ?%Hnohealth].
        right; left. repeat split. right. by exists e.
      * exists (cors_out release (headers req) (RedirectResponse location)).
        split.
        { unfold respond. by rewrite (app_of_inner req _ Hpre Hin). }
        rewrite cors_out_status.
        split; [discriminate|]. split; [|by intros ?%Hnohealth].
        right; left. repeat split. left. exists location.
        repeat split.
        by rewrite cors_out_get_other by (vm_compute; discriminate).
    + exists (cors_out release (headers req)
                (http_exception_handler 404 "Not Found" [])).
      split.
      { unfold respond. by rewrite (app_of_inner req _ Hpre Hin). }
      rewrite cors_out_status, cors_out_body.
      split; [discriminate|]. split; [|by intros ?%Hnohealth].
      right; right. by repeat split.
Qed.

(** C3 (amended). Every response to a request that bears an Origin
    header, other than the server error sent when an exception escapes
    the routes, carries Access-Control-Allow-Origin (the wildcard, or
    the request's origin) and Access-Control-Allow-Credentials: true.
    The response to a preflight also carries
    Access-Control-Allow-Methods, listing the methods the middleware
    allows, and Access-Control-Allow-Headers mirroring the requested
    headers.  In particular GET /health with an Origin header gets
    status 200, the unchanged body and an allow-origin header. *)
Theorem cors_headers_for_origin (req : Request) (s : St) (origin : string) :
  Headers.get "origin" (headers req) = Some origin ->
  exists resp,
    result (Respond req s) = inr resp
    /\ ((exists e, result (run (Cors req) s) = inl e /\ resp = error_response)
        \/ ((Headers.get ALLOW_ORIGIN (raw_headers resp) = Some "*"
             \/ Headers.get ALLOW_ORIGIN (raw_headers resp) = Some origin)
            /\ Headers.get ALLOW_CREDENTIALS (raw_headers resp) = Some "true"
            /\ (is_preflight req = true ->
                Headers.get ALLOW_METHODS (raw_headers resp)
                  = Some (String.concat ", " (CORS.ALL_METHODS release))
                /\ Headers.get ALLOW_HEADERS (raw_headers resp)
                   = Headers.get "access-control-request-headers" (headers req))))
    /\ (method req = "GET" -> path req = "/health" ->
        status_code resp = 200
        /\ resp_body resp = JSON {[ "status" := "ok" ]}
        /\ (Headers.get ALLOW_ORIGIN (raw_headers resp) = Some "*"
            \/ Headers.get ALLOW_ORIGIN (raw_headers resp) = Some origin)).
Proof.
  intros Ho.
  destruct (is_preflight req) eqn:Hpre.
  - destruct (preflight_inv req Hpre) as (Hm & origin' & rm & Ho' & Hrm).
    rewrite Ho in Ho'. injection Ho' as <-.
    rewrite (respond_preflight req s origin rm Hm Ho Hrm).
    eexists. split; [reflexivity|].
    destruct (preflight_response_facts release (headers req) origin rm)
      as (_ & _ & Hao & Hac & Ham & Hah).
    split.
    + right. split; [by right|]. split; [exact Hac|]. by intros _.
    + intros HG. rewrite Hm in HG. discriminate.
  - destruct (respond_not_preflight req s Hpre) as (_ & _ & Hres).
    destruct (result (run (Inner req) s)) as [e|routed] eqn:Hin.
    + destruct Hres as [Hcors Hres]. exists error_response.
      split; [exact Hres|]. split; [left; by exists e|].
      intros Hm Hp. rewrite (inner_health req Hm Hp) in Hin. discriminate.
    + destruct Hres as [Hcors Hres].
      exists (cors_out release (headers req) routed). split; [exact Hres|].
      destruct (cors_out_allow release (headers req) routed origin Ho)
        as [Hao Hac].
      split; [right; split; [exact Hao|]; split; [exact Hac | discriminate]|].
      intros Hm Hp. rewrite (inner_health req Hm Hp) in Hin. simpl in Hin.
      injection Hin as <-. rewrite cors_out_status, cors_out_body.
      by repeat split.
Qed.

(** C10 (amended). An OPTIONS request to any path that carries an
    Origin header and an Access-Control-Request-Method header is
    answered by the CORS middleware itself, without reaching the
    routes and without touching the state: with a success response
    (200, body OK) when the middleware allows the requested method and
    its other preflight checks pass, with status 400 otherwise.
    Either way the response carries the allow headers (the origin
    echoed, credentials allowed, the allowed methods, the requested
    headers mirrored) and is never a not-found or method-not-allowed
    answer. *)
Theorem preflight_answered_by_cors (req : Request) (s : St)
    (origin requested_method : string) :
  method req = "OPTIONS" ->
  Headers.get "origin" (headers req) = Some origin ->
  Headers.get "access-control-request-method" (headers req)
    = Some requested_method ->
  exists resp,
    Respond req s = mkOutcome (inr resp) s []
    /\ resp = CORS.preflight_response release (cors release) (headers req)
                origin requested_method
    /\ ((Text.mem requested_method (CORS.ALL_METHODS release) = true
         /\ CORS.preflight_checks release (headers req) = []
         /\ status_code resp = 200 /\ resp_body resp = Bytes "OK")
        \/ ((Text.mem requested_method (CORS.ALL_METHODS release) = false
             \/ CORS.preflight_checks release (headers req) <> [])
            /\ status_code resp = 400
            /\ exists failures,
                 resp_body resp = Bytes ("Disallowed CORS " +:+ failures)))
    /\ status_code resp <> 404 /\ status_code resp <> 405
    /\ Headers.get ALLOW_ORIGIN (raw_headers resp) = Some origin
    /\ Headers.get ALLOW_CREDENTIALS (raw_headers resp) = Some "true"
    /\ Headers.get ALLOW_METHODS (raw_headers resp)
       = Some (String.concat ", " (CORS.ALL_METHODS release))
    /\ Headers.get ALLOW_HEADERS (raw_headers resp)
       = Headers.get "access-control-request-headers" (headers req).
Proof.
  intros Hm Ho Hrm. eexists. split; [by apply respond_preflight|].
  split; [reflexivity|].
  destruct (preflight_response_facts release (headers req) origin requested_method)
    as (Hst & Hbody & Hao & Hac & Ham & Hah).
  rewrite Hst, Hbody. unfold preflight_failures.
  destruct (Text.mem requested_method (CORS.ALL_METHODS release));
    destruct (CORS.preflight_checks release (headers req)) as [|f fs]; simpl;
    (split; [|repeat split; auto; discriminate]).
  - left. by repeat split.
  - right. split; [by right|]. split; [reflexivity|]. eauto.
  - right. split; [by left|]. split; [reflexivity|]. eauto.
  - right. split; [by left|]. split; [reflexivity|]. eauto.
Qed.

End Properties.

(** ** The sample deployment at work *)

(** Scenario 1 of the specification. *)
Example get_health_plain :
  match result (Sample.respond Sample.get_health false) with
  | inr resp => status_code resp = 200 /\ resp_body resp = JSON {[ "status" := "ok" ]}
  | inl _ => False
  end.
Proof. by split. Qed.

(** Scenario 3: POST /health. *)
Example post_health_refused :
  match result (Sample.respond (Sample.request "POST" "/health" "" [] "") false) with
  | inr resp =>
      status_code resp = 405
      /\ resp_body resp = JSON {[ "detail" := "Method Not Allowed" ]}
      /\ Headers.get "allow" (raw_headers resp) = Some "GET"
  | inl _ => False
  end.
Proof. by repeat split. Qed.

(** Scenario 4: GET /unknown. *)
Example get_unknown_not_found :
  match result (Sample.respond (Sample.request "GET" "/unknown" "" [] "") false) with
  | inr resp =>
      status_code resp = 404 /\ resp_body resp = JSON {[ "detail" := "Not Found" ]}
  | inl _ => False
  end.
Proof. by split. Qed.

(** A trailing slash is redirected, not refused; the query string is
    kept. *)
Example get_health_slash_redirected :
  match result (Sample.respond
                  (Sample.request "GET" "/health/" "probe=1"
                     [("host", "example.org")] "") false) with
  | inr resp =>
      status_code resp = 307
      /\ Headers.get "location" (raw_headers resp)
         = Some "http://example.org/health?probe=1"
  | inl _ => False
  end.
Proof. by split. Qed.

(** A redirect whose query string is not UTF-8 ends in a server error. *)
Example get_health_slash_bad_query :
  Sample.respond (Sample.request "GET" "/health/" Sample.not_utf8 [] "") false
  = mkOutcome (inr error_response) false [].
Proof. reflexivity. Qed.

(** The state is not a bystander: the schema endpoint does change it. *)
Example get_openapi_caches_schema :
  final (Sample.respond (Sample.request "GET" "/openapi.json" "" [] "") false)
  = true.
Proof. reflexivity. Qed.

(** ** Instances of the theorems *)

Lemma get_health_ok_witness :
  method (Sample.get_health_from "http://example.com") = "GET"
  /\ path (Sample.get_health_from "http://example.com") = "/health"
  /\ exists resp,
       result (Sample.respond (Sample.get_health_from "http://example.com") true)
         = inr resp
       /\ status_code resp = 200
       /\ resp_body resp = JSON {[ "status" := "ok" ]}
       /\ Headers.get "content-type" (raw_headers resp) = Some "application/json".
Proof.
  split; [reflexivity|]. split; [reflexivity|].
  apply (get_health_ok Sample.builtin Sample.release Sample.head_first
           (Sample.get_health_from "http://example.com") true); reflexivity.
Defined.

Lemma repeated_health_requests_witness :
  method Sample.get_health = "GET"
  /\ path Sample.get_health = "/health"
  /\ exists resp,
       result (Sample.respond Sample.get_health false) = inr resp
       /\ Sample.serve (repeat Sample.get_health 3) false
          = (repeat (inr resp) 3, false).
Proof.
  split; [reflexivity|]. split; [reflexivity|].
  apply (repeated_health_requests Sample.builtin Sample.release Sample.head_first
           Sample.get_health 3 false); reflexivity.
Defined.

Lemma health_handler_noninterference_witness :
  let r1 := Sample.request "GET" "/health" "verbose=1" [("accept", "*/*")] "" in
  let r2 := Sample.request "GET" "/health" "" [("x-probe", "lb")] "ignored body" in
  method r1 = "GET" /\ path r1 = "/health"
  /\ method r2 = "GET" /\ path r2 = "/health"
  /\ get_request_handler (St := Sample.State) health_check 200 r1
     = get_request_handler health_check 200 r2
  /\ ExceptionMiddleware
       (router_app (routes Sample.builtin Sample.head_first)) r1
     = ExceptionMiddleware
         (router_app (routes Sample.builtin Sample.head_first)) r2
  /\ result (run (ExceptionMiddleware
                    (router_app (routes Sample.builtin Sample.head_first)) r1)
                 false)
     = result (run (ExceptionMiddleware
                      (router_app (routes Sample.builtin Sample.head_first)) r2)
                   true)
  /\ exists resp1 resp2,
       result (Sample.respond r1 false) = inr resp1
       /\ result (Sample.respond r2 true) = inr resp2
       /\ status_code resp1 = status_code resp2
       /\ resp_body resp1 = resp_body resp2
       /\ Headers.get "content-type" (raw_headers resp1)
          = Headers.get "content-type" (raw_headers resp2).
Proof.
  intros r1 r2. repeat (split; [reflexivity|]).
  apply (health_handler_noninterference Sample.builtin Sample.release
           Sample.head_first r1 r2 false true); reflexivity.
Defined.

Lemma health_check_cannot_fail_witness :
  method Sample.get_health = "GET"
  /\ path Sample.get_health = "/health"
  /\ exists resp,
       result (Sample.respond Sample.get_health false) = inr resp
       /\ status_code resp = 200.
Proof.
  split; [reflexivity|]. split; [reflexivity|].
  apply (health_check_cannot_fail Sample.builtin Sample.release Sample.head_first
           Sample.get_health false); reflexivity.
Defined.

Lemma health_check_no_side_effect_witness :
  method Sample.get_health = "GET"
  /\ path Sample.get_health = "/health"
  /\ final (Sample.respond Sample.get_health true) = true.
Proof.
  split; [reflexivity|]. split; [reflexivity|].
  apply (health_check_no_side_effect Sample.builtin Sample.release
           Sample.head_first Sample.get_health true false); reflexivity.
Defined.

Lemma health_check_never_suspends_witness :
  method Sample.get_health = "GET"
  /\ path Sample.get_health = "/health"
  /\ trace (Sample.respond Sample.get_health false) = [].
Proof.
  split; [reflexivity|]. split; [reflexivity|].
  apply (health_check_never_suspends Sample.builtin Sample.release
           Sample.head_first Sample.get_health false); reflexivity.
Defined.

Lemma unrouted_request_default_witness :
  let req := Sample.request "POST" "/docs" "" [("origin", "http://example.com")] "" in
  is_preflight req = false
  /\ accepted (routes Sample.builtin Sample.head_first) req = false
  /\ exists resp,
       Sample.respond req false = mkOutcome (inr resp) false []
       /\ status_code resp <> 200
       /\ status_code resp = 405
       /\ resp_body resp = JSON {[ "detail" := "Method Not Allowed" ]}.
Proof.
  intros req. split; [reflexivity|]. split; [reflexivity|].
  destruct (unrouted_request_default Sample.builtin Sample.release
              Sample.head_first req false eq_refl eq_refl)
    as (resp & Hresp & Hnot & [(_ & Hst & Hbody)|[(Hreg & _)|(Hreg & _)]] & _);
    [|discriminate Hreg|discriminate Hreg].
  exists resp. by repeat split.
Defined.

Lemma cors_headers_for_origin_witness :
  let pre := Sample.request "OPTIONS" "/health" ""
               [("origin", "http://example.com");
                ("access-control-request-method", "GET");
                ("access-control-request-headers", "x-token")] "" in
  let req := Sample.get_health_from "http://example.com" in
  Headers.get "origin" (headers pre) = Some "http://example.com"
  /\ Headers.get "origin" (headers req) = Some "http://example.com"
  /\ (exists resp,
        result (Sample.respond pre false) = inr resp
        /\ Headers.get ALLOW_ORIGIN (raw_headers resp) = Some "http://example.com"
        /\ Headers.get ALLOW_CREDENTIALS (raw_headers resp) = Some "true"
        /\ Headers.get ALLOW_METHODS (raw_headers resp)
           = Some (String.concat ", " (CORS.ALL_METHODS Sample.release))
        /\ Headers.get ALLOW_HEADERS (raw_headers resp) = Some "x-token")
  /\ (exists resp,
        result (Sample.respond req false) = inr resp
        /\ status_code resp = 200
        /\ resp_body resp = JSON {[ "status" := "ok" ]}
        /\ (Headers.get ALLOW_ORIGIN (raw_headers resp) = Some "*"
            \/ Headers.get ALLOW_ORIGIN (raw_headers resp)
               = Some "http://example.com")
        /\ Headers.get ALLOW_CREDENTIALS (raw_headers resp) = Some "true").
Proof.
  intros pre req. split; [reflexivity|]. split; [reflexivity|]. split.
  - destruct (cors_headers_for_origin Sample.builtin Sample.release
                Sample.head_first pre false "http://example.com" eq_refl)
      as (resp & Hres & [(e & He & _)|(Hao & Hac & Hpre)] & _);
      [discriminate He|].
    destruct (Hpre eq_refl) as [Ham Hah].
    exists resp. injection Hres as <-. by repeat split.
  - destruct (cors_headers_for_origin Sample.builtin Sample.release
                Sample.head_first req false "http://example.com" eq_refl)
      as (resp & Hres & [(e & He & _)|(Hao & Hac & _)] & Hget);
      [discriminate He|].
    destruct (Hget eq_refl eq_refl) as (Hst & Hbody & _).
    exists resp. by repeat split.
Defined.

Lemma preflight_answered_by_cors_witness :
  let req := Sample.preflight_health "GET" in
  method req = "OPTIONS"
  /\ Headers.get "origin" (headers req) = Some "http://example.com"
  /\ Headers.get "access-control-request-method" (headers req) = Some "GET"
  /\ exists resp,
       Sample.respond req false = mkOutcome (inr resp) false []
       /\ status_code resp = 200
       /\ resp_body resp = Bytes "OK"
       /\ Headers.get ALLOW_ORIGIN (raw_headers resp) = Some "http://example.com"
       /\ Headers.get ALLOW_CREDENTIALS (raw_headers resp) = Some "true"
       /\ Headers.get ALLOW_METHODS (raw_headers resp)
          = Some (String.concat ", " (CORS.ALL_METHODS Sample.release)).
Proof.
  intros req. repeat (split; [reflexivity|]).
  destruct (preflight_answered_by_cors Sample.builtin Sample.release
              Sample.head_first req false "http://example.com" "GET"
              eq_refl eq_refl eq_refl)
    as (resp & Hres & _ & [(_ & _ & Hst & Hbody)|([Hmem|Hchk] & _)]
        & _ & _ & Hao & Hac & Ham & _);
    [|discriminate Hmem|by destruct Hchk].
  exists resp. by repeat split.
Defined.

(** ** Where the specification and the code part *)

(** C2. Requests whose path is not /health or whose method is not GET
    and that get a 200 all the same: the CORS preflight for /health,
    answered by the middleware; GET for /health followed by a line
    feed, which the health route accepts; GET for a documentation path,
    answered by the framework's own endpoint. *)
Lemma requests_off_health_answered_200 :
  (path (Sample.preflight_health "GET") = "/health"
   /\ method (Sample.preflight_health "GET") <> "GET"
   /\ exists resp,
        result (Sample.respond (Sample.preflight_health "GET") false) = inr resp
        /\ status_code resp = 200
        /\ resp_body resp = Bytes "OK")
  /\ (let req := Sample.request "GET" ("/health" +:+ Text.LF) "" [] "" in
      path req <> "/health"
      /\ exists resp,
           result (Sample.respond req false) = inr resp
           /\ status_code resp = 200
           /\ resp_body resp = JSON {[ "status" := "ok" ]})
  /\ (let req := Sample.request "GET" "/docs" "" [] "" in
      path req <> "/health"
      /\ result (Sample.respond req false)
         = inr (fst (Sample.builtin swagger_ui_html req false))
      /\ status_code (fst (Sample.builtin swagger_ui_html req false)) = 200).
Proof.
  split; [|split].
  - split; [reflexivity|]. split; [discriminate|].
    eexists. split; [reflexivity|]. split; reflexivity.
  - split; [discriminate|]. eexists. split; [reflexivity|]. split; reflexivity.
  - split; [discriminate|]. split; reflexivity.
Qed.

(** C3. A request without an Origin header is answered without
    Access-Control-Allow-Origin and Access-Control-Allow-Credentials; a
    simple request with one is answered without
    Access-Control-Allow-Methods and Access-Control-Allow-Headers; the
    server error for a redirect that cannot be built carries no CORS
    header although the request has an Origin header. *)
Lemma cors_headers_not_on_every_response :
  (exists resp,
     result (Sample.respond Sample.get_health false) = inr resp
     /\ Headers.get ALLOW_ORIGIN (raw_headers resp) = None
     /\ Headers.get ALLOW_CREDENTIALS (raw_headers resp) = None
     /\ Headers.get ALLOW_METHODS (raw_headers resp) = None
     /\ Headers.get ALLOW_HEADERS (raw_headers resp) = None)
  /\ (exists resp,
        result (Sample.respond (Sample.get_health_from "http://example.com") false)
          = inr resp
        /\ Headers.get ALLOW_METHODS (raw_headers resp) = None
        /\ Headers.get ALLOW_HEADERS (raw_headers resp) = None)
  /\ (exists resp,
        result (Sample.respond
                  (Sample.request "GET" "/health/" Sample.not_utf8
                     [("origin", "http://example.com")] "") false)
          = inr resp
        /\ status_code resp = 500
        /\ Headers.get ALLOW_ORIGIN (raw_headers resp) = None
        /\ Headers.get ALLOW_CREDENTIALS (raw_headers resp) = None).
Proof.
  repeat split; eexists; (split; [reflexivity|]); repeat split; reflexivity.
Qed.

(** C10. A preflight that asks for a method the middleware does not
    allow is answered by the middleware with status 400, not with a
    success. *)
Lemma preflight_propfind_is_400 :
  method (Sample.preflight_health "PROPFIND") = "OPTIONS"
  /\ Headers.contains "origin" (headers (Sample.preflight_health "PROPFIND")) = true
  /\ Headers.contains "access-control-request-method"
       (headers (Sample.preflight_health "PROPFIND")) = true
  /\ exists resp,
       result (Sample.respond (Sample.preflight_health "PROPFIND") false) = inr resp
       /\ status_code resp = 400
       /\ resp_body resp = Bytes "Disallowed CORS method".
Proof.
  repeat (split; [reflexivity|]).
  eexists. split; [reflexivity|]. split; reflexivity.
Qed.


(** * The application beyond the health route

    Properties of [app] as [src/main.py] assembles it, for requests of
    any kind. *)

Section Beyond.

Context {St : Type}.
Variable builtin : Builtin -> Request -> St -> Response * St.
Variable release : CORS.Release.
Variable head_first : bool.

Local Abbreviation Routes := (routes builtin head_first).
Local Abbreviation Docs := (FastAPI builtin head_first).
Local Abbreviation Inner := (ExceptionMiddleware (router_app Routes)).
Local Abbreviation Cors := (CORS.call release (cors release) Inner).
Local Abbreviation Respond := (respond builtin release head_first).
Local Abbreviation Serve := (serve builtin release head_first).

(** X1. The server-error middleware answers in one case only: a request
    (not a preflight) for an unregistered path that would be redirected
    to a registered one, when the URL of the redirect cannot be built.
    Every other request gets the response the CORS middleware lets out;
    every request gets a response. *)
Theorem server_error_only_for_redirect (req : Request) (s : St) :
  exists resp,
    result (Respond req s) = inr resp
    /\ (result (run (Cors req) s) = inr resp
        \/ (exists e,
              result (run (Cors req) s) = inl e
              /\ resp = error_response
              /\ is_preflight req = false
              /\ registered Routes (path req) = false
              /\ redirectable Routes req = true
              /\ Url.location (redirect_scope req) = inl e)).
Proof.
  destruct (is_preflight req) eqn:Hpre.
  - destruct (preflight_inv req Hpre) as (Hm & origin & rm & Ho & Hrm).
    eexists. split.
    + by rewrite (respond_preflight builtin release head_first req s origin rm).
    + left. by rewrite (cors_call_preflight builtin release head_first req origin rm).
  - destruct (respond_not_preflight builtin release head_first req s Hpre)
      as (_ & _ & Hres).
    destruct (result (run (Inner req) s)) as [e|routed] eqn:Hin.
    + destruct Hres as [Hcors Hres]. exists error_response.
      split; [exact Hres|]. right. exists e.
      destruct (inner_raises builtin head_first req s e Hin) as (H1 & H2 & H3 & _).
      by repeat split.
    + destruct Hres as [Hcors Hres]. eexists. split; [exact Hres|]. by left.
Qed.

(** Off the documentation paths the routes answer, or raise, at once. *)
Lemma inner_off_docs (req : Request) :
  registered Docs (path req) = false ->
  (exists resp, Inner req = Return resp) \/ (exists e, Inner req = Raise e).
Proof.
  intros Hdocs.
  destruct (path_regex_match "/health" (path req)) eqn:Hhealth.
  - left. eexists. by apply inner_health_path.
  - assert (Hreg : registered Routes (path req) = false).
    { unfold registered, routes in *. rewrite existsb_app, Hdocs. simpl.
      by rewrite Hhealth. }
    rewrite (inner_unregistered builtin head_first req Hreg).
    destruct (redirectable Routes req); [|left; eauto].
    destruct (Url.location (redirect_scope req)); [right | left]; eauto.
Qed.

(** X2. Only the framework's documentation endpoints can touch the
    state: a request whose path is none of the documentation paths is
    answered without any effect and leaves the state as it was, whatever
    its method and headers. *)
Theorem state_untouched_off_docs (req : Request) (s : St) :
  registered Docs (path req) = false ->
  exists resp, Respond req s = mkOutcome (inr resp) s [].
Proof.
  intros Hdocs. destruct (is_preflight req) eqn:Hpre.
  - destruct (preflight_inv req Hpre) as (Hm & origin & rm & Ho & Hrm).
    eexists. by apply respond_preflight.
  - destruct (inner_off_docs req Hdocs) as [[resp0 Hin]|[e Hin]].
    + exists (cors_out release (headers req) resp0).
      unfold respond.
      by rewrite (app_of_inner builtin release head_first req resp0).
    + exists error_response. unfold respond.
      by rewrite (app_of_inner_raise builtin release head_first req e).
Qed.

(** X3. A credentialed request has its origin reflected: a request that
    is not a preflight and bears an Origin and a Cookie header is
    answered, unless with the server error, with its own origin in
    Access-Control-Allow-Origin, whatever that origin is, with
    Access-Control-Allow-Credentials: true, and with Origin in Vary. *)
Theorem credentialed_origin_reflected (req : Request) (s : St) (origin : string) :
  is_preflight req = false ->
  Headers.get "origin" (headers req) = Some origin ->
  Headers.contains "cookie" (headers req) = true ->
  exists resp,
    result (Respond req s) = inr resp
    /\ ((exists e, result (run (Cors req) s) = inl e /\ resp = error_response)
        \/ (Headers.get ALLOW_ORIGIN (raw_headers resp) = Some origin
            /\ Headers.get ALLOW_CREDENTIALS (raw_headers resp) = Some "true"
            /\ exists vary,
                 Headers.get "vary" (raw_headers resp) = Some vary
                 /\ (vary = "Origin"
                     \/ exists before, vary = before +:+ ", Origin"))).
Proof.
  intros Hpre Ho Hcookie.
  destruct (respond_not_preflight builtin release head_first req s Hpre)
    as (_ & _ & Hres).
  destruct (result (run (Inner req) s)) as [e|routed].
  - destruct Hres as [Hcors Hres]. exists error_response.
    split; [exact Hres|]. left. by exists e.
  - destruct Hres as [_ Hres]. exists (cors_out release (headers req) routed).
    split; [exact Hres|]. right.
    split; [|split; [by apply (cors_out_allow release (headers req) routed origin)|]].
    + unfold cors_out. rewrite Ho, send_raw_headers, Hcookie. simpl.
      rewrite get_add_vary_ne by (vm_compute; discriminate).
      apply get_raw_set_eq.
    + unfold cors_out. rewrite Ho, send_raw_headers, Hcookie. simpl.
      rewrite get_add_vary. eexists. split; [reflexivity|].
      destruct (Headers.get "vary" _) as [existing|]; [right | by left].
      by exists existing.
Qed.

(** X4. The CORS middleware is transparent for everything but its own
    headers: when the routes answer a request that is not a preflight,
    the response sent has their status and body and every header other
    than allow-origin, allow-credentials and vary as they set it, and
    the state is the one they left; without an Origin header only Vary
    can differ.  When the routes raise, the server error is sent. *)
Theorem cors_layer_transparent (req : Request) (s : St) :
  is_preflight req = false ->
  final (Respond req s) = final (run (Inner req) s)
  /\ match result (run (Inner req) s) with
     | inr routed =>
         exists resp,
           result (Respond req s) = inr resp
           /\ status_code resp = status_code routed
           /\ resp_body resp = resp_body routed
           /\ (forall k,
                 Text.lower k <> ALLOW_ORIGIN ->
                 Text.lower k <> ALLOW_CREDENTIALS ->
                 Text.lower k <> "vary" ->
                 Headers.get k (raw_headers resp)
                 = Headers.get k (raw_headers routed))
           /\ (Headers.get "origin" (headers req) = None ->
               forall k,
                 Text.lower k <> "vary" ->
                 Headers.get k (raw_headers resp)
                 = Headers.get k (raw_headers routed))
     | inl _ => result (Respond req s) = inr error_response
     end.
Proof.
  intros Hpre.
  destruct (respond_not_preflight builtin release head_first req s Hpre)
    as (Hfin & _ & Hres).
  split; [exact Hfin|].
  destruct (result (run (Inner req) s)) as [e|routed]; [by destruct Hres|].
  destruct Hres as [_ Hres]. exists (cors_out release (headers req) routed).
  rewrite cors_out_status, cors_out_body. repeat split; try assumption.
  - intros k H1 H2 H3. by apply cors_out_get_other.
  - intros Ho k Hk. unfold cors_out. rewrite Ho.
    by apply send_without_origin_get.
Qed.

Lemma registered_no_trailing_slash (p : string) :
  registered Routes p = true -> Text.endswith_slash p = false.
Proof.
  unfold registered. simpl. intros H.
  repeat (apply orb_prop in H as [H|H];
          [apply path_regex_match_cases in H as [-> | ->]; reflexivity|]).
  discriminate.
Qed.

(** X5. A registered path written with trailing slashes is redirected,
    not served.  A request (not a preflight) whose path ends in a slash
    and is a registered path once its trailing slashes are removed gets,
    whatever its method, a 307 with an empty body whose Location is the
    quoted URL of the path without them; with a Host header and no
    query string that URL is scheme://host followed by that path.  When
    the URL cannot be built the server error is sent.  The state is
    unchanged either way. *)
Theorem trailing_slash_redirects (req : Request) (s : St) :
  is_preflight req = false ->
  Text.endswith_slash (path req) = true ->
  registered Routes (Text.rstrip_slash (path req)) = true ->
  path (redirect_scope req) = Text.rstrip_slash (path req)
  /\ match Url.location (redirect_scope req) with
     | inr location =>
         exists resp,
           Respond req s = mkOutcome (inr resp) s []
           /\ status_code resp = 307
           /\ resp_body resp = Bytes ""
           /\ Headers.get "location" (raw_headers resp) = Some location
     | inl _ => Respond req s = mkOutcome (inr error_response) s []
     end
  /\ (forall host,
        Headers.get_raw "host" (headers req) = Some host ->
        query_string req = "" ->
        Url.location (redirect_scope req)
        = inr (Url.quote_text
                 (scheme req +:+ "://" +:+ host
                  +:+ Text.rstrip_slash (path req)))).
Proof.
  intros Hpre Hslash Hreg.
  assert (Hunreg : registered Routes (path req) = false).
  { destruct (registered Routes (path req)) eqn:E; [|reflexivity].
    apply registered_no_trailing_slash in E. congruence. }
  assert (Hroot : String.eqb (path req) "/" = false).
  { destruct (String.eqb_spec (path req) "/") as [E|]; [|reflexivity].
    rewrite E in Hreg. discriminate. }
  assert (Hscope : path (redirect_scope req) = Text.rstrip_slash (path req)).
  { unfold redirect_scope. simpl. by rewrite Hslash. }
  split; [exact Hscope|].
  pose proof (inner_unregistered builtin head_first req Hunreg) as Hin.
  unfold redirectable in Hin. rewrite Hroot, Hscope, Hreg in Hin. simpl in Hin.
  split.
  - destruct (Url.location (redirect_scope req)) as [e|location].
    + unfold respond.
      by rewrite (app_of_inner_raise builtin release head_first req e Hpre Hin).
    + eexists. split.
      { unfold respond.
        by rewrite (app_of_inner builtin release head_first req _ Hpre Hin). }
      rewrite cors_out_status, cors_out_body.
      by rewrite cors_out_get_other by (vm_compute; discriminate).
  - intros host Hhost Hquery.
    unfold Url.location, Url.origin_and_path.
    change (headers (redirect_scope req)) with (headers req).
    change (query_string (redirect_scope req)) with (query_string req).
    change (scheme (redirect_scope req)) with (scheme req).
    by rewrite Hhost, Hquery, Hscope.
Qed.

(** X6. Including the health router leaves the framework's documentation
    routes in place: a GET or HEAD request (not a preflight) for one of
    the four documentation paths is answered by the corresponding
    built-in endpoint, with its status and body, and the state is the
    one that endpoint leaves. *)
Theorem documentation_routes_served (req : Request) (s : St) (b : Builtin) :
  is_preflight req = false ->
  In (path req, b)
     [("/openapi.json", openapi); ("/docs", swagger_ui_html);
      ("/docs/oauth2-redirect", swagger_ui_redirect); ("/redoc", redoc_html)] ->
  method req = "GET" \/ method req = "HEAD" ->
  exists resp,
    result (Respond req s) = inr resp
    /\ final (Respond req s) = snd (builtin b req s)
    /\ status_code resp = status_code (fst (builtin b req s))
    /\ resp_body resp = resp_body (fst (builtin b req s)).
Proof.
  intros Hpre Hin Hm.
  assert (Hrun : run (Inner req) s
                 = mkOutcome (inr (fst (builtin b req s))) (snd (builtin b req s)) []).
  { destruct req as [m p q h bd sch srv]. simpl in Hin, Hm.
    repeat (destruct Hin as [[= <- <-]|Hin];
            [destruct Hm as [-> | ->]; destruct head_first; reflexivity|]).
    destruct Hin. }
  destruct (respond_not_preflight builtin release head_first req s Hpre)
    as (Hfin & _ & Hres).
  rewrite Hrun in Hres, Hfin. simpl in Hres, Hfin. destruct Hres as [_ Hres].
  exists (cors_out release (headers req) (fst (builtin b req s))).
  rewrite cors_out_status, cors_out_body. by repeat split.
Qed.

Lemma serve_app (l1 l2 : list Request) (s : St) :
  Serve (l1 ++ l2) s =
  (fst (Serve l1 s) ++ fst (Serve l2 (snd (Serve l1 s))),
   snd (Serve l2 (snd (Serve l1 s)))).
Proof.
  revert s. induction l1 as [|req l1 IH]; intros s; simpl.
  - by destruct (Serve l2 s).
  - rewrite IH.
    by destruct (Serve l1 (final (Respond req s))),
                (Serve l2 _).
Qed.

(** X7. The health response does not depend on the server's history:
    after any sequence of earlier requests, of whatever kind, a
    GET /health request gets the response it would get first, and
    leaves the state the earlier requests produced. *)
Theorem health_after_any_history (history : list Request) (req : Request) (s : St) :
  method req = "GET" -> path req = "/health" ->
  exists resp,
    result (Respond req s) = inr resp
    /\ Serve (history ++ [req]) s
       = (fst (Serve history s) ++ [inr resp], snd (Serve history s)).
Proof.
  intros Hm Hp. exists (cors_out release (headers req) health_response).
  rewrite respond_health by assumption. split; [reflexivity|].
  rewrite serve_app. simpl. by rewrite respond_health.
Qed.

(** X8. Off the documentation paths, a request that is not a preflight
    is answered with status 200 exactly when its method is GET and its
    path is /health, or /health followed by one line feed (which the
    route's pattern tolerates); the body is then the health payload. *)
Theorem ok_exactly_for_health (req : Request) (s : St) :
  is_preflight req = false ->
  registered Docs (path req) = false ->
  exists resp,
    result (Respond req s) = inr resp
    /\ (status_code resp = 200 <->
        method req = "GET"
        /\ (path req = "/health" \/ path req = "/health" +:+ Text.LF))
    /\ (status_code resp = 200 -> resp_body resp = JSON {[ "status" := "ok" ]}).
Proof.
  intros Hpre Hdocs.
  destruct (path_regex_match "/health" (path req)) eqn:Hhealth.
  - pose proof (inner_health_path builtin head_first req Hhealth) as Hin.
    eexists. split.
    { unfold respond.
      by rewrite (app_of_inner builtin release head_first req _ Hpre Hin). }
    rewrite cors_out_status, cors_out_body.
    apply path_regex_match_cases in Hhealth.
    destruct (String.eqb_spec (method req) "GET") as [Hm|Hm]; simpl.
    + repeat split; auto.
    + split; [split; [discriminate | tauto] | discriminate].
  - assert (Hunreg : registered Routes (path req) = false).
    { unfold registered, routes in *. rewrite existsb_app, Hdocs. simpl.
      by rewrite Hhealth. }
    pose proof (inner_unregistered builtin head_first req Hunreg) as Hin.
    assert (Hnot : ~ (path req = "/health" \/ path req = "/health" +:+ Text.LF)).
    { intros [E|E]; rewrite E in Hhealth; discriminate. }
    destruct (redirectable Routes req);
      [destruct (Url.location (redirect_scope req)) as [e|location]|].
    + exists error_response. split.
      { unfold respond.
        by rewrite (app_of_inner_raise builtin release head_first req e Hpre Hin). }
      simpl. split; [split; [discriminate | tauto] | discriminate].
    + eexists. split.
      { unfold respond.
        by rewrite (app_of_inner builtin release head_first req _ Hpre Hin). }
      rewrite cors_out_status, cors_out_body. simpl.
      split; [split; [discriminate | tauto] | discriminate].
    + eexists. split.
      { unfold respond.
        by rewrite (app_of_inner builtin release head_first req _ Hpre Hin). }
      rewrite cors_out_status, cors_out_body. simpl.
      split; [split; [discriminate | tauto] | discriminate].
Qed.

End Beyond.

(** ** Instances on the sample deployment *)

Lemma state_untouched_off_docs_witness :
  let req := Sample.request "POST" "/health" "" [] "" in
  registered (FastAPI Sample.builtin Sample.head_first) (path req) = false
  /\ exists resp, Sample.respond req true = mkOutcome (inr resp) true [].
Proof.
  intros req. split; [reflexivity|].
  apply (state_untouched_off_docs Sample.builtin Sample.release Sample.head_first
           req true).
  reflexivity.
Defined.

Lemma credentialed_origin_reflected_witness :
  let req := Sample.request "GET" "/health" ""
               [("origin", "https://any.example"); ("cookie", "session=1")] "" in
  is_preflight req = false
  /\ Headers.get "origin" (headers req) = Some "https://any.example"
  /\ Headers.contains "cookie" (headers req) = true
  /\ exists resp,
       result (Sample.respond req false) = inr resp
       /\ Headers.get ALLOW_ORIGIN (raw_headers resp) = Some "https://any.example"
       /\ Headers.get ALLOW_CREDENTIALS (raw_headers resp) = Some "true"
       /\ Headers.get "vary" (raw_headers resp) = Some "Origin".
Proof.
  intros req. do 3 (split; [reflexivity|]).
  destruct (credentialed_origin_reflected Sample.builtin Sample.release
              Sample.head_first req false "https://any.example"
              eq_refl eq_refl eq_refl)
    as (resp & Hres & [(e & He & _)|(Hao & Hac & _)]); [discriminate He|].
  exists resp. injection Hres as <-. by repeat split.
Defined.

Lemma cors_layer_transparent_witness :
  let req := Sample.request "POST" "/health" "" [("origin", "http://example.com")] "" in
  is_preflight req = false
  /\ final (Sample.respond req false) = false
  /\ exists resp,
       result (Sample.respond req false) = inr resp
       /\ status_code resp = 405
       /\ Headers.get "allow" (raw_headers resp) = Some "GET".
Proof.
  intros req. split; [reflexivity|].
  destruct (cors_layer_transparent Sample.builtin Sample.release Sample.head_first
              req false eq_refl) as [Hfin Hres].
  split; [exact Hfin|].
  destruct Hres as (resp & Hres & Hst & _ & Hother & _).
  exists resp. split; [exact Hres|]. split; [exact Hst|].
  by rewrite Hother by (vm_compute; discriminate).
Defined.

Lemma trailing_slash_redirects_witness :
  let req := Sample.request "POST" "/health//" "" [("host", "example.org")] "" in
  is_preflight req = false
  /\ Text.endswith_slash (path req) = true
  /\ registered (routes Sample.builtin Sample.head_first)
       (Text.rstrip_slash (path req)) = true
  /\ Url.location (redirect_scope req) = inr "http://example.org/health"
  /\ exists resp,
       Sample.respond req false = mkOutcome (inr resp) false []
       /\ status_code resp = 307
       /\ resp_body resp = Bytes ""
       /\ Headers.get "location" (raw_headers resp)
          = Some "http://example.org/health".
Proof.
  intros req. do 3 (split; [reflexivity|]).
  destruct (trailing_slash_redirects Sample.builtin Sample.release
              Sample.head_first req false eq_refl eq_refl eq_refl)
    as (_ & Hres & Hloc).
  split; [exact (Hloc "example.org" eq_refl eq_refl)|].
  exact Hres.
Defined.

Lemma documentation_routes_served_witness :
  let req := Sample.request "HEAD" "/openapi.json" "" [] "" in
  is_preflight req = false
  /\ (method req = "GET" \/ method req = "HEAD")
  /\ exists resp,
       result (Sample.respond req false) = inr resp
       /\ final (Sample.respond req false) = snd (Sample.builtin openapi req false)
       /\ status_code resp = status_code (fst (Sample.builtin openapi req false))
       /\ resp_body resp = resp_body (fst (Sample.builtin openapi req false)).
Proof.
  intros req. split; [reflexivity|]. split; [by right|].
  apply (documentation_routes_served Sample.builtin Sample.release
           Sample.head_first req false openapi);
    [reflexivity | by left | by right].
Defined.

Lemma health_after_any_history_witness :
  let history := [Sample.request "GET" "/openapi.json" "" [] "";
                  Sample.request "DELETE" "/nowhere" "" [] ""] in
  method Sample.get_health = "GET" /\ path Sample.get_health = "/health"
  /\ exists resp,
       result (Sample.respond Sample.get_health false) = inr resp
       /\ Sample.serve (history ++ [Sample.get_health]) false
          = (fst (Sample.serve history false) ++ [inr resp],
             snd (Sample.serve history false)).
Proof.
  intros history. split; [reflexivity|]. split; [reflexivity|].
  apply (health_after_any_history Sample.builtin Sample.release Sample.head_first
           history Sample.get_health false); reflexivity.
Defined.

Lemma ok_exactly_for_health_witness :
  let req := Sample.request "GET" ("/health" +:+ Text.LF) "" [] "" in
  is_preflight req = false
  /\ registered (FastAPI Sample.builtin Sample.head_first) (path req) = false
  /\ exists resp,
       result (Sample.respond req false) = inr resp
       /\ (status_code resp = 200 <->
           method req = "GET"
           /\ (path req = "/health" \/ path req = "/health" +:+ Text.LF))
       /\ (status_code resp = 200 -> resp_body resp = JSON {[ "status" := "ok" ]}).
Proof.
  intros req. split; [reflexivity|]. split; [reflexivity|].
  apply (ok_exactly_for_health Sample.builtin Sample.release Sample.head_first
           req false); reflexivity.
Defined.
